(** * TorchEEG: the DANN trainer and the AMIGOS dataset

    A shallow embedding of

    - [torcheeg/trainers/domain_adaption/dann.py]
      ([GradientReverse], [DANNTrainer]), and
    - [torcheeg/datasets/module/emotion_recognition/amigos.py]
      ([AMIGOSDataset]).

    Conventions.  Python floats are idealised as real numbers ([R]);
    Python integers are [Z].  A Python exception is a value of
    [exception] carried by the [result] monad.  Calls into the deep
    learning framework (module forward passes, the loss function, the
    autograd engine, the optimizer, the metrics) are the fields of the
    class [Torch]; the methods the trainer inherits are the fields of
    the class [Hooks].  The definitions come first, the theorems
    follow. *)

From stdpp Require Import base option list strings gmap.
From Stdlib Require Import ZArith Reals Lra Lia.

(* ================================================================== *)
(** * Python exceptions *)
(* ================================================================== *)

Inductive exception : Type :=
  | IndexError
  | KeyError (key : string)
  | ValueError (msg : string)
  | ZeroDivisionError
  | RuntimeError (msg : string).

Inductive result (A : Type) : Type :=
  | Ok (a : A)
  | Raise (e : exception).
Arguments Ok {A} a.
Arguments Raise {A} e.

#[global] Instance result_ret : MRet result := fun A a => Ok a.

#[global] Instance result_bind : MBind result := fun A B k r =>
  match r with
  | Ok a => k a
  | Raise e => Raise e
  end.

(** [tup[i]] on a Python tuple or list, for a non-negative literal [i]. *)
Definition getitem_tuple {A : Type} (tup : list A) (i : nat) : result A :=
  match tup !! i with
  | Some a => Ok a
  | None => Raise IndexError
  end.

(* ================================================================== *)
(** * Tensors *)
(* ================================================================== *)

(** A tensor is a shape and its entries in row-major order. *)
Record tensor : Type := Tensor { shape : list nat; data : list R }.

Definition view_as (x other : tensor) : tensor :=
  {| shape := shape other; data := data x |}.

Definition neg (x : tensor) : tensor :=
  {| shape := shape x; data := map Ropp (data x) |}.

(** [x * a] for a tensor [x] and a Python scalar [a]. *)
Definition mul_scalar (x : tensor) (a : R) : tensor :=
  {| shape := shape x; data := map (fun v => (v * a)%R) (data x) |}.

(** [a * x], the scalar on the left. *)
Definition scale (a : R) (x : tensor) : tensor :=
  {| shape := shape x; data := map (fun v => (a * v)%R) (data x) |}.

(** [len(x)]: the size of the first dimension. *)
Definition tensor_len (x : tensor) : nat := hd 0%nat (shape x).

(* ================================================================== *)
(** * [GradientReverse] *)
(* ================================================================== *)

Module GradientReverse.

(** The autograd context object: [ctx.alpha] is unset until [forward]
    stores it. *)
Record ctx : Type := Ctx { alpha : option R }.

Definition empty_ctx : ctx := {| alpha := None |}.

(** [forward(ctx, x, alpha)]: stores [alpha], returns [x.view_as(x)]. *)
Definition forward (c : ctx) (x : tensor) (a : R) : ctx * tensor :=
  ({| alpha := Some a |}, view_as x x).

(** [backward(ctx, grad_output)]: [grad_output.neg() * ctx.alpha], and
    [None] as the gradient of [alpha].  Reading an unset [ctx.alpha]
    is an [AttributeError] in Python; it cannot happen after
    [forward], so we model it by [None]. *)
Definition backward (c : ctx) (grad_output : tensor)
  : option (tensor * option R) :=
  match alpha c with
  | Some a => Some (mul_scalar (neg grad_output) a, None)
  | None => None
  end.

(** [GradientReverse.apply(x, alpha)]: the value of the forward pass;
    the context is kept by the autograd graph. *)
Definition apply (x : tensor) (a : R) : tensor :=
  snd (forward empty_ctx x a).

End GradientReverse.

(* ================================================================== *)
(** * [itertools.cycle] and [zip] *)
(* ================================================================== *)

Section Itertools.
Context {A B : Type}.

(** The state of a [cycle] object: the underlying iterator ([None]
    once it is exhausted and dropped), the elements saved so far and
    the replay cursor into them. *)
Record cycle_state : Type := CycleState {
  it : option (list A);
  saved : list A;
  index : nat
}.

(** [cycle(iterable)] *)
Definition cycle (iterable : list A) : cycle_state :=
  {| it := Some iterable; saved := []; index := 0 |}.

(** [next(c)]: the first pass yields from the iterator and saves; when
    it is exhausted the saved elements are replayed for ever, and an
    empty [saved] ends the iteration. *)
Definition cycle_next (c : cycle_state) : option A * cycle_state :=
  match it c with
  | Some (x :: rest) =>
      (Some x, {| it := Some rest; saved := saved c ++ [x]; index := index c |})
  | _ =>
      match saved c !! index c with
      | None => (None, {| it := None; saved := saved c; index := index c |})
      | Some x =>
          let i := S (index c) in
          (Some x, {| it := None; saved := saved c;
                      index := if decide (length (saved c) <= i) then 0 else i |})
      end
  end.

(** [zip(xs, c)] for a finite [xs] and a cycle [c]: [zip] asks [xs]
    first and stops at the first exhausted argument. *)
Fixpoint zip_list_cycle (xs : list A) (c : cycle_state) {struct xs}
  : list (A * A) :=
  match xs with
  | [] => []
  | x :: xs' =>
      match cycle_next c with
      | (Some y, c') => (x, y) :: zip_list_cycle xs' c'
      | (None, _) => []
      end
  end.

(** [zip(c, ys)] for a cycle [c] and a finite [ys]: the cycle is asked
    first. *)
Fixpoint zip_cycle_list (c : cycle_state) (ys : list A) {struct ys}
  : list (A * A) :=
  match cycle_next c with
  | (None, _) => []
  | (Some x, c') =>
      match ys with
      | [] => []
      | y :: ys' => (x, y) :: zip_cycle_list c' ys'
      end
  end.

(** [cycle_at ys k c]: the cycle [c] over [ys] has yielded [k] elements.
    Either it is still in its first pass, or it replays [ys]. *)
Definition cycle_at (ys : list A) (k : nat) (c : cycle_state) : Prop :=
  (k <= length ys /\ it c = Some (drop k ys) /\ saved c = take k ys /\
   index c = 0) \/
  (ys <> [] /\ it c = None /\ saved c = ys /\ index c = k `mod` length ys).

(** [enumerate(xs)] *)
Definition enumerate (xs : list B) : list (Z * B) :=
  imap (fun i x => (Z.of_nat i, x)) xs.

End Itertools.

(* ================================================================== *)
(** * Python values and arithmetic used by the trainer *)
(* ================================================================== *)

(** An [Optional[int]] argument or attribute. *)
Inductive pyval : Type :=
  | PyNone
  | PyInt (z : Z).

(** [a / b] for a float [a] and an int [b]. *)
Definition truediv (a : R) (b : Z) : result R :=
  if decide (b = 0%Z) then Raise ZeroDivisionError else Ok (a / IZR b)%R.

(** [a % b] on ints: the result has the sign of [b]. *)
Definition pymod (a b : Z) : result Z :=
  if decide (b = 0%Z) then Raise ZeroDivisionError else Ok (a mod b)%Z.

(** [math.ceil(n / 5)] for an int [n]. *)
Definition ceil_div5 (n : Z) : Z := (- ((- n) / 5))%Z.

(** [range(n)] *)
Definition range (n : Z) : list Z := seqZ 0 n.

(* ================================================================== *)
(** * The autograd graph *)
(* ================================================================== *)

Inductive module_name : Type := extractor | classifier | domain_classifier.

(** What [loss.backward()] walks: how a tensor was computed from the
    batch through the trainer's modules. *)
Inductive tnode : Type :=
  | Leaf (x : tensor)
  | Call (m : module_name) (x : tnode)
  | GradReverse (alpha : R) (x : tnode).

Inductive snode : Type :=
  | CrossEntropy (input : tnode) (target : tensor)
  | Add (a b : snode)
  | Mul (c : R) (a : snode).

(** A tensor that requires grad: its value and its history. *)
Record var : Type := Var { value : tensor; grad_fn : tnode }.

(** A scalar loss: its value and its history. *)
Record loss_var : Type := LossVar { item : R; loss_grad_fn : snode }.

Definition leaf (x : tensor) : var := {| value := x; grad_fn := Leaf x |}.

Definition grad_reverse (x : var) (a : R) : var :=
  {| value := GradientReverse.apply (value x) a;
     grad_fn := GradReverse a (grad_fn x) |}.

Definition loss_add (a b : loss_var) : loss_var :=
  {| item := (item a + item b)%R;
     loss_grad_fn := Add (loss_grad_fn a) (loss_grad_fn b) |}.

Definition loss_mul (c : R) (a : loss_var) : loss_var :=
  {| item := (c * item a)%R; loss_grad_fn := Mul c (loss_grad_fn a) |}.

(** [torch.zeros(n, dtype=torch.long)] and [torch.ones(n, dtype=torch.long)] *)
Definition zeros (n : nat) : tensor := {| shape := [n]; data := replicate n 0%R |}.
Definition ones (n : nat) : tensor := {| shape := [n]; data := replicate n 1%R |}.

(* ================================================================== *)
(** * Data loaders *)
(* ================================================================== *)

(** A batch is the tuple of tensors the loader's collate function
    returns: features first, labels (if any) next. *)
Abbreviation batch := (list tensor).

(** A [DataLoader]: the batches one iteration over it yields, whether
    its sampler wants [set_epoch], and the epoch last set. *)
Record DataLoader : Type := {
  batches : list batch;
  need_to_set_epoch : bool;
  sampler_epoch : Z
}.

Definition set_epoch (t : Z) (l : DataLoader) : DataLoader :=
  {| batches := batches l; need_to_set_epoch := need_to_set_epoch l;
     sampler_epoch := t |}.

(** [if hasattr(loader, 'need_to_set_epoch'): loader.sampler.set_epoch(t)] *)
Definition maybe_set_epoch (t : Z) (l : DataLoader) : DataLoader :=
  if need_to_set_epoch l then set_epoch t l else l.

(** [zip(source_loader, cycle(target_loader)) if len(source_loader) >
    len(target_loader) else zip(cycle(source_loader), target_loader)] *)
Definition zip_loader (source_loader target_loader : DataLoader)
  : list (batch * batch) :=
  if decide (length (batches target_loader) < length (batches source_loader))
  then zip_list_cycle (batches source_loader) (cycle (batches target_loader))
  else zip_cycle_list (cycle (batches source_loader)) (batches target_loader).

(** [for x in xs: body], the body threading the state and an exception
    ending the loop. *)
Fixpoint for_each {S X : Type} (xs : list X) (body : S -> X -> result S)
    (s : S) : result S :=
  match xs with
  | [] => Ok s
  | x :: xs' => s' ← body s x; for_each xs' body s'
  end.

(* ================================================================== *)
(** * The framework, as far as the trainer uses it *)
(* ================================================================== *)

(** [self.modules]: a dict with exactly these three keys. *)
Record modules_dict (M : Type) : Type := {
  m_extractor : M;
  m_classifier : M;
  m_domain_classifier : M
}.
Arguments m_extractor {M} _.
Arguments m_classifier {M} _.
Arguments m_domain_classifier {M} _.

Definition get_module {M : Type} (ms : modules_dict M) (k : module_name) : M :=
  match k with
  | extractor => m_extractor ms
  | classifier => m_classifier ms
  | domain_classifier => m_domain_classifier ms
  end.

(** [for k, m in self.modules.items(): self.modules[k].f()] *)
Definition map_modules {M : Type} (f : M -> M) (ms : modules_dict M)
  : modules_dict M :=
  {| m_extractor := f (m_extractor ms);
     m_classifier := f (m_classifier ms);
     m_domain_classifier := f (m_domain_classifier ms) |}.

(** [self.modules[k] = m] *)
Definition set_module {M : Type} (k : module_name) (m : M)
    (ms : modules_dict M) : modules_dict M :=
  match k with
  | extractor =>
      {| m_extractor := m; m_classifier := m_classifier ms;
         m_domain_classifier := m_domain_classifier ms |}
  | classifier =>
      {| m_extractor := m_extractor ms; m_classifier := m;
         m_domain_classifier := m_domain_classifier ms |}
  | domain_classifier =>
      {| m_extractor := m_extractor ms; m_classifier := m_classifier ms;
         m_domain_classifier := m |}
  end.

Class Torch : Type := {
  (** An [nn.Module] object: its weights with their [.grad], its
      buffers and its train/eval flag. *)
  nn_module : Type;
  (** [getattr(m, name)], [None] when [hasattr(m, name)] is false. *)
  getattr : nn_module -> string -> option pyval;
  (** [m(x)]: the forward pass, a function of the module and its input. *)
  module_call : nn_module -> tensor -> tensor;
  (** [m.train()] and [m.eval()] *)
  train : nn_module -> nn_module;
  eval : nn_module -> nn_module;
  (** [nn.CrossEntropyLoss()(input, target)] *)
  CrossEntropyLoss : tensor -> tensor -> R;
  (** [pred.argmax(1)] *)
  argmax1 : tensor -> tensor;
  (** A torchmetrics accumulator is the list of its updates since the
      last [reset()]; [compute()] is a function of that list. *)
  mean_compute : list R -> R;
  accuracy_compute : list (tensor * tensor) -> R;
  (** Adam's running moments. *)
  adam_state : Type;
  (** [torch.optim.Adam(chain(m.parameters() for the listed modules),
      lr=lr, weight_decay=weight_decay)]: the fresh moments, or the
      exception the constructor raises. *)
  Adam_new : list module_name -> modules_dict nn_module -> R -> R ->
             result adam_state;
  (** [torchmetrics.Accuracy(task='multiclass', num_classes=k, top_k=1)]:
      the constructor returns or raises. *)
  Accuracy_new : pyval -> result ();
  (** [optimizer.zero_grad()], [loss.backward()] (which accumulates into
      the [.grad] of the parameters) and [optimizer.step()], for an
      optimizer over the parameters of the listed modules. *)
  zero_grad : list module_name -> modules_dict nn_module -> modules_dict nn_module;
  backward : snode -> modules_dict nn_module -> modules_dict nn_module;
  adam_step : list module_name -> R -> R -> adam_state ->
              modules_dict nn_module -> adam_state * modules_dict nn_module;
  (** The calls of a validation or test step as they run.  [m(x)] returns
      the module as the call leaves it (its buffers may have changed)
      and the output, or raises; the loss, [argmax] and the updates of
      the metrics return or raise. *)
  run_module : nn_module -> tensor -> result (nn_module * tensor);
  run_loss_fn : tensor -> tensor -> result R;
  run_argmax1 : tensor -> result tensor;
  mean_update : R -> result ();
  accuracy_update : tensor -> tensor -> result ()
}.

(* ================================================================== *)
(** * [DANNTrainer] *)
(* ================================================================== *)

(** One line of [self.log(...)] output of a sampled training step:
    [loss: {train_loss}, accuracy: {train_accuracy}% [{batch_id}/{num_batches}]] *)
Record log_entry : Type := LogEntry {
  log_loss : R;
  log_accuracy : R;
  log_batch_id : Z;
  log_num_batches : Z
}.

Section DANNTrainer.
Context `{!Torch}.

Record Adam : Type := {
  params : list module_name;
  opt_lr : R;
  opt_weight_decay : R;
  opt_state : adam_state
}.

Record trainer : Type := Trainer {
  modules : modules_dict nn_module;
  world_size : Z;
  is_main : bool;
  lr : R;
  weight_decay : R;
  lambd : R;
  adaption_factor : bool;
  num_classes : pyval;
  optimizer : Adam;
  train_loss : list R;
  train_accuracy : list (tensor * tensor);
  val_loss : list R;
  val_accuracy : list (tensor * tensor);
  test_loss : list R;
  test_accuracy : list (tensor * tensor);
  logs : list log_entry
}.

Definition set_modules (ms : modules_dict nn_module) (self : trainer) : trainer :=
  Trainer ms (world_size self) (is_main self) (lr self) (weight_decay self)
    (lambd self) (adaption_factor self) (num_classes self) (optimizer self)
    (train_loss self) (train_accuracy self) (val_loss self)
    (val_accuracy self) (test_loss self) (test_accuracy self) (logs self).

Definition set_optimizer (o : Adam) (self : trainer) : trainer :=
  Trainer (modules self) (world_size self) (is_main self) (lr self)
    (weight_decay self) (lambd self) (adaption_factor self)
    (num_classes self) o (train_loss self) (train_accuracy self)
    (val_loss self) (val_accuracy self) (test_loss self)
    (test_accuracy self) (logs self).

Definition set_train_loss (m : list R) (self : trainer) : trainer :=
  Trainer (modules self) (world_size self) (is_main self) (lr self)
    (weight_decay self) (lambd self) (adaption_factor self)
    (num_classes self) (optimizer self) m (train_accuracy self)
    (val_loss self) (val_accuracy self) (test_loss self)
    (test_accuracy self) (logs self).

Definition set_train_accuracy (m : list (tensor * tensor)) (self : trainer)
  : trainer :=
  Trainer (modules self) (world_size self) (is_main self) (lr self)
    (weight_decay self) (lambd self) (adaption_factor self)
    (num_classes self) (optimizer self) (train_loss self) m
    (val_loss self) (val_accuracy self) (test_loss self)
    (test_accuracy self) (logs self).

Definition set_val_loss (m : list R) (self : trainer) : trainer :=
  Trainer (modules self) (world_size self) (is_main self) (lr self)
    (weight_decay self) (lambd self) (adaption_factor self)
    (num_classes self) (optimizer self) (train_loss self)
    (train_accuracy self) m (val_accuracy self) (test_loss self)
    (test_accuracy self) (logs self).

Definition set_val_accuracy (m : list (tensor * tensor)) (self : trainer)
  : trainer :=
  Trainer (modules self) (world_size self) (is_main self) (lr self)
    (weight_decay self) (lambd self) (adaption_factor self)
    (num_classes self) (optimizer self) (train_loss self)
    (train_accuracy self) (val_loss self) m (test_loss self)
    (test_accuracy self) (logs self).



(** [self.log(msg)] *)
Definition log (msg : log_entry) (self : trainer) : trainer :=
  Trainer (modules self) (world_size self) (is_main self) (lr self)
    (weight_decay self) (lambd self) (adaption_factor self)
    (num_classes self) (optimizer self) (train_loss self)
    (train_accuracy self) (val_loss self) (val_accuracy self)
    (test_loss self) (test_accuracy self) (logs self ++ [msg]).

(** ** [__init__]

    [parent] is what [BasicTrainer.__init__] (the call of line 127) does
    with the modules and the device options: it raises, or it returns
    and has read [world_size] and [is_main] from the distributed
    environment.  [MeanMetric()] and [nn.CrossEntropyLoss()] take no
    argument of the trainer's. *)
Definition DANNTrainer_init (extractor_ classifier_ domain_classifier_ : nn_module)
    (lambd_ : R) (adaption_factor_ : bool) (num_classes_ : pyval)
    (lr_ weight_decay_ : R) (parent : result (Z * bool))
  : result trainer :=
  '(world_size_, is_main_) ← parent;
  let modules_ := {| m_extractor := extractor_;
                     m_classifier := classifier_;
                     m_domain_classifier := domain_classifier_ |} in
  self_num_classes ←
    match num_classes_ with
    | PyInt _ => Ok num_classes_
    | PyNone =>
        match getattr classifier_ "num_classes" with
        | Some v => Ok v
        | None => Raise (ValueError "The number of classes is not specified.")
        end
    end;
  moments ← Adam_new [extractor; classifier; domain_classifier] modules_
              lr_ weight_decay_;
  let optimizer_ := {| params := [extractor; classifier; domain_classifier];
                       opt_lr := lr_;
                       opt_weight_decay := weight_decay_;
                       opt_state := moments |} in
  (* init metric: train_accuracy, val_accuracy, test_accuracy *)
  Accuracy_new self_num_classes;;
  Accuracy_new self_num_classes;;
  Accuracy_new self_num_classes;;
  Ok {| modules := modules_; world_size := world_size_; is_main := is_main_;
        lr := lr_; weight_decay := weight_decay_; lambd := lambd_;
        adaption_factor := adaption_factor_;
        num_classes := self_num_classes;
        optimizer := optimizer_;
        train_loss := []; train_accuracy := [];
        val_loss := []; val_accuracy := [];
        test_loss := []; test_accuracy := [];
        logs := [] |}.

(** ** [on_training_step] *)

(** [self.modules[k](x)] *)
Definition call (self : trainer) (k : module_name) (x : var) : var :=
  {| value := module_call (get_module (modules self) k) (value x);
     grad_fn := Call k (grad_fn x) |}.

(** [self.loss_fn(input, target)] *)
Definition loss_fn (input : var) (target : tensor) : loss_var :=
  {| item := CrossEntropyLoss (value input) target;
     loss_grad_fn := CrossEntropy (grad_fn input) target |}.

(** [self.optimizer.step()] *)
Definition optimizer_step (self : trainer) : trainer :=
  let o := optimizer self in
  let '(s, ms) := adam_step (params o) (opt_lr o) (opt_weight_decay o)
                    (opt_state o) (modules self) in
  set_optimizer {| params := params o; opt_lr := opt_lr o;
                   opt_weight_decay := opt_weight_decay o; opt_state := s |}
    (set_modules ms self).

(** The reversal coefficient [gamma] of a step (lines 182 to 187). *)
Definition gamma (self : trainer)
    (batch_id num_batches epoch_id num_epochs : Z) : result R :=
  if adaption_factor self then
    q ← truediv (IZR (batch_id + epoch_id * num_batches)) num_epochs;
    p ← truediv q num_batches;
    Ok (2 / (1 + exp (-10 * p)) - 1)%R
  else Ok 1%R.

(** [.to(self.device)] moves a tensor and leaves its value alone, so it
    is left out. *)
Definition on_training_step (self : trainer)
    (source_loader target_loader : batch)
    (batch_id num_batches epoch_id num_epochs : Z) : result trainer :=
  let self := set_train_accuracy [] self in
  let self := set_train_loss [] self in
  let self := set_modules
                (zero_grad (params (optimizer self)) (modules self)) self in

  X_source ← getitem_tuple source_loader 0;
  y_source ← getitem_tuple source_loader 1;
  X_target ← getitem_tuple target_loader 0;

  let X_source_feat := call self extractor (leaf X_source) in
  let y_source_pred := call self classifier X_source_feat in

  gamma ← gamma self batch_id num_batches epoch_id num_epochs;

  let X_source_rev := grad_reverse X_source_feat gamma in
  let y_source_disc := call self domain_classifier X_source_rev in

  let X_target_feat := call self extractor (leaf X_target) in
  let X_target_rev := grad_reverse X_target_feat gamma in
  let y_target_disc := call self domain_classifier X_target_rev in

  let task_loss := loss_fn y_source_pred y_source in
  let disc_loss_source :=
    loss_fn y_source_disc (zeros (tensor_len (value y_source_disc))) in
  let disc_loss_target :=
    loss_fn y_target_disc (ones (tensor_len (value y_target_disc))) in
  let dann_loss :=
    loss_mul (lambd self) (loss_add disc_loss_source disc_loss_target) in

  let loss := loss_add task_loss dann_loss in

  let self := set_modules (backward (loss_grad_fn loss) (modules self)) self in
  let self := optimizer_step self in

  let log_step := ceil_div5 num_batches in
  r ← pymod batch_id log_step;
  if decide (r = 0%Z) then
    let self := set_train_loss (train_loss self ++ [item loss]) self in
    let self := set_train_accuracy
                  (train_accuracy self ++
                     [(argmax1 (value y_source_pred), y_source)]) self in
    let train_loss_ := mean_compute (train_loss self) in
    let train_accuracy_ := (100 * accuracy_compute (train_accuracy self))%R in
    let batch_id := (batch_id * world_size self)%Z in
    let num_batches := (num_batches * world_size self)%Z in
    if is_main self then
      Ok (log {| log_loss := train_loss_; log_accuracy := train_accuracy_;
                 log_batch_id := batch_id;
                 log_num_batches := num_batches |} self)
    else Ok self
  else Ok self.

(** ** [validation_step] and [on_test_step] *)

(** [self.modules[k](x)] as it runs: the trainer with the module as the
    call leaves it, and the output. *)
Definition run (self : trainer) (k : module_name) (x : tensor)
  : result (trainer * tensor) :=
  '(m, out) ← run_module (get_module (modules self) k) x;
  Ok (set_modules (set_module k m (modules self)) self, out).

Definition validation_step (self : trainer) (val_batch : batch)
    (batch_id num_batches : Z) : result trainer :=
  X ← getitem_tuple val_batch 0;
  y ← getitem_tuple val_batch 1;

  '(self, feat) ← run self extractor X;
  '(self, pred) ← run self classifier feat;

  loss ← run_loss_fn pred y;
  mean_update loss;;
  let self := set_val_loss (val_loss self ++ [loss]) self in
  pred_class ← run_argmax1 pred;
  accuracy_update pred_class y;;
  Ok (set_val_accuracy (val_accuracy self ++ [(pred_class, y)]) self).


End DANNTrainer.

(** ** [fit] *)

(** The methods [fit] calls that [DANNTrainer] inherits from its parent
    classes ([ClassificationTrainer], [BasicTrainer]). *)
Class Hooks `{!Torch} : Type := {
  on_reveive_dataloader : trainer -> DataLoader -> string -> result DataLoader;
  before_training_epoch : trainer -> Z -> Z -> result trainer;
  before_training_step : trainer -> Z -> Z -> result trainer;
  after_training_step : trainer -> Z -> Z -> result trainer;
  after_training_epoch : trainer -> Z -> Z -> result trainer;
  before_validation_epoch : trainer -> Z -> Z -> result trainer;
  before_validation_step : trainer -> Z -> Z -> result trainer;
  after_validation_step : trainer -> Z -> Z -> result trainer;
  after_validation_epoch : trainer -> Z -> Z -> result trainer
}.

Section Fit.
Context `{!Torch} `{!Hooks}.

(** The body of the training loop of epoch [t] (lines 270 to 279). *)
Definition training_step (num_batches t num_epochs : Z) (self : trainer)
    (cur : Z * (batch * batch)) : result trainer :=
  let '(batch_id, (cur_source_loader, cur_target_loader)) := cur in
  self ← before_training_step self batch_id num_batches;
  self ← on_training_step self cur_source_loader cur_target_loader
           batch_id num_batches t num_epochs;
  after_training_step self batch_id num_batches.

(** The training half of epoch [t] (lines 258 to 281). *)
Definition training_epoch (self : trainer)
    (source_loader target_loader : DataLoader) (t num_epochs : Z)
  : result trainer :=
  let num_batches :=
    Z.of_nat (length (batches source_loader) `max`
              length (batches target_loader)) in
  let self := set_modules (map_modules train (modules self)) self in
  let zip_loader := zip_loader source_loader target_loader in
  self ← before_training_epoch self (t + 1)%Z num_epochs;
  self ← for_each (enumerate zip_loader)
           (training_step num_batches t num_epochs) self;
  after_training_epoch self (t + 1)%Z num_epochs.

(** The validation half of epoch [t] (lines 283 to 298). *)
Definition validation_epoch (self : trainer) (val_loader : DataLoader)
    (t num_epochs : Z) : result trainer :=
  let self := set_modules (map_modules eval (modules self)) self in
  let num_batches := Z.of_nat (length (batches val_loader)) in
  self ← before_validation_epoch self (t + 1)%Z num_epochs;
  self ← for_each (enumerate (batches val_loader))
           (fun self '(batch_id, val_batch) =>
              self ← before_validation_step self batch_id num_batches;
              self ← validation_step self val_batch batch_id num_batches;
              after_validation_step self batch_id num_batches) self;
  after_validation_epoch self (t + 1)%Z num_epochs.

(** What the loop over the epochs carries: the trainer and the three
    loader objects, whose samplers [set_epoch] updates. *)
Record fit_state : Type := {
  fit_self : trainer;
  fit_source_loader : DataLoader;
  fit_target_loader : DataLoader;
  fit_val_loader : DataLoader
}.

Definition fit (self : trainer)
    (source_loader target_loader val_loader : DataLoader) (num_epochs : Z)
  : result trainer :=
  source_loader ← on_reveive_dataloader self source_loader "train";
  target_loader ← on_reveive_dataloader self target_loader "train";
  val_loader ← on_reveive_dataloader self val_loader "val";
  st ← for_each (range num_epochs)
         (fun st t =>
            let source_loader := maybe_set_epoch t (fit_source_loader st) in
            let target_loader := maybe_set_epoch t (fit_target_loader st) in
            let val_loader := maybe_set_epoch t (fit_val_loader st) in
            self ← training_epoch (fit_self st) source_loader target_loader
                     t num_epochs;
            self ← validation_epoch self val_loader t num_epochs;
            Ok {| fit_self := self;
                  fit_source_loader := source_loader;
                  fit_target_loader := target_loader;
                  fit_val_loader := val_loader |})
         {| fit_self := self;
            fit_source_loader := source_loader;
            fit_target_loader := target_loader;
            fit_val_loader := val_loader |};
  Ok (fit_self st).

End Fit.

(* ================================================================== *)
(** * [AMIGOSDataset] *)
(* ================================================================== *)

(** The Python objects the dataset handles: the cells of the metadata
    table, the arrays of the cache, and [str(...)] on a cell. *)
Class Cells : Type := {
  cell : Type;
  ndarray : Type;
  str : cell -> string
}.

(** A Python [dict] with string keys, in insertion order. *)
Abbreviation dict := (list (string * cell)).

(** [self.info], a [DataFrame]: one dict per row, keyed by column. *)
Abbreviation DataFrame := (list dict).

Section AMIGOSDataset.
Context `{!Cells}.

(** [d[key]] *)
Definition dict_getitem (d : dict) (key : string) : result cell :=
  match list_find (fun kv => kv.1 = key) d with
  | Some (_, (_, v)) => Ok v
  | None => Raise (KeyError key)
  end.

(** [d.values()] *)
Definition values (d : dict) : list cell := d.*2.

(** [df.iloc[index].to_dict()]: a negative [index] counts from the end. *)
Definition iloc (df : DataFrame) (index : Z) : result dict :=
  let n := Z.of_nat (length df) in
  let i := if decide (index < 0)%Z then (index + n)%Z else index in
  if decide (0 <= i < n)%Z then
    match df !! Z.to_nat i with
    | Some row => Ok row
    | None => Raise IndexError
    end
  else Raise IndexError.

(** [self.eeg_io.read_eeg(key)] on the cache store, a mapping from clip
    identifiers to arrays. *)
Definition read_eeg (eeg_io : gmap string ndarray) (key : string)
  : result ndarray :=
  match eeg_io !! key with
  | Some eeg => Ok eeg
  | None => Raise (RuntimeError "Unable to index the EEG signal sample.")
  end.

(** What [info] can be after the label transform, as [__getitem__]
    tells the cases apart with [isinstance]. *)
Inductive info_value : Type :=
  | InfoList (l : list cell)
  | InfoDict (d : dict)
  | InfoOther (v : cell).

Record AMIGOSDataset : Type := {
  info : DataFrame;
  eeg_io : gmap string ndarray;
  root_path : string;
  chunk_size : Z;
  overlap : Z;
  channel_num : Z;
  trial_num : Z;
  online_transform : option (ndarray -> ndarray);
  offline_transform : option (ndarray -> ndarray);
  label_transform : option (dict -> info_value);
  io_path : string;
  verbose : bool
}.

(** [__getitem__]: the returned tuple [(eeg, *rest)] is the pair of its
    first element and the list of the others. *)
Definition getitem (self : AMIGOSDataset) (index : Z)
  : result (ndarray * list cell) :=
  info ← iloc (info self) index;

  clip_id ← dict_getitem info "clip_id";
  let eeg_index := str clip_id in
  eeg ← read_eeg (eeg_io self) eeg_index;

  let eeg := match online_transform self with
             | Some online_transform => online_transform eeg
             | None => eeg
             end in

  let info := match label_transform self with
              | Some label_transform => label_transform info
              | None => InfoDict info
              end in

  match info with
  | InfoList l => Ok (eeg, l)
  | InfoDict d => Ok (eeg, values d)
  | InfoOther v => Ok (eeg, [v])
  end.

(** ** The constructor *)

(** One cache directory: the metadata table and the chunk store. *)
Record cache : Type := {
  cache_info : DataFrame;
  cache_eeg : gmap string ndarray
}.

(** One chunk the constructor produces: its clip identifier, its
    metadata row and its array. *)
Record chunk : Type := {
  chunk_clip_id : string;
  chunk_info : dict;
  chunk_eeg : ndarray
}.

(** The chunk store after writing [chunks] one by one. *)
Definition write_chunks (chunks : list chunk) : cache :=
  {| cache_info := chunk_info <$> chunks;
     cache_eeg := foldl (fun m c => <[chunk_clip_id c := chunk_eeg c]> m)
                    ∅ chunks |}.

(** Modelled from the spec: [amigos_constructor], which is imported from
    [torcheeg/datasets/functional/emotion_recognition/amigos.py] and is
    not among the sources.  "Given a root directory of per-subject files
    and chunking parameters [...] produces a persisted set of (chunk,
    metadata) pairs exactly once per distinct configuration; subsequent
    constructions [...] are no-ops that reuse the cache"; "re-running
    with an unchanged [io_path] and configuration reuses the existing
    cache rather than rebuilding it"; "malformed input files abort
    construction".  The file system is the map from cache paths to cache
    directories; [slice] stands for reading and chunking the raw files
    under [root_path]; the second component of the result lists the
    chunk writes performed. *)
Definition amigos_constructor
    (slice : string -> Z -> Z -> Z -> Z -> option (ndarray -> ndarray) ->
             result (list chunk))
    (root_path : string) (chunk_size overlap channel_num trial_num : Z)
    (transform : option (ndarray -> ndarray)) (io_path : string)
    (num_worker : Z) (verbose : bool) (fs : gmap string cache)
  : result (gmap string cache * list string) :=
  match fs !! io_path with
  | Some _ => Ok (fs, [])
  | None =>
      chunks ← slice root_path chunk_size overlap channel_num trial_num
                 transform;
      Ok (<[io_path := write_chunks chunks]> fs, chunk_clip_id <$> chunks)
  end.

(** Modelled from the spec: [BaseDataset.__init__(io_path)], which is
    not among the sources: it opens the cache directory at [io_path],
    "holding the chunked-array store and a metadata table". *)
Definition base_dataset_init (io_path : string) (fs : gmap string cache)
  : result cache :=
  match fs !! io_path with
  | Some c => Ok c
  | None => Raise (RuntimeError "The cache directory does not exist.")
  end.

(** [AMIGOSDataset.__init__]: the dataset, the file system it leaves and
    the chunk writes it performed. *)
Definition AMIGOSDataset_init
    (slice : string -> Z -> Z -> Z -> Z -> option (ndarray -> ndarray) ->
             result (list chunk))
    (root_path : string) (chunk_size overlap channel_num trial_num : Z)
    (online_transform offline_transform : option (ndarray -> ndarray))
    (label_transform : option (dict -> info_value)) (io_path : string)
    (num_worker : Z) (verbose : bool) (fs : gmap string cache)
  : result (AMIGOSDataset * gmap string cache * list string) :=
  '(fs, writes) ← amigos_constructor slice root_path chunk_size overlap
                    channel_num trial_num offline_transform io_path
                    num_worker verbose fs;
  c ← base_dataset_init io_path fs;
  Ok ({| info := cache_info c; eeg_io := cache_eeg c;
         root_path := root_path; chunk_size := chunk_size;
         overlap := overlap; channel_num := channel_num;
         trial_num := trial_num; online_transform := online_transform;
         offline_transform := offline_transform;
         label_transform := label_transform; io_path := io_path;
         verbose := verbose |}, fs, writes).

End AMIGOSDataset.

(* ================================================================== *)
(** * The specification's formulas *)
(* ================================================================== *)

(** The adaptive schedule as the specification words it:
    [2/(1+exp(-10p)) - 1], with [p] the fraction of the training steps
    completed. *)
Definition spec_progress (batch_id num_batches epoch_id num_epochs : Z) : R :=
  (IZR (batch_id + epoch_id * num_batches) / IZR (num_epochs * num_batches))%R.

Definition spec_coefficient (p : R) : R := (2 / (1 + exp (-10 * p)) - 1)%R.

Section SpecLoss.
Context `{!Torch}.

(** The total loss as the specification words it: the task loss plus
    [lambd] times the sum of the two domain losses. *)
Definition spec_task_loss (ms : modules_dict nn_module) (X_source y_source : tensor)
  : R :=
  CrossEntropyLoss
    (module_call (m_classifier ms) (module_call (m_extractor ms) X_source))
    y_source.

Definition spec_domain_loss (ms : modules_dict nn_module) (X : tensor)
    (domain : nat -> tensor) : R :=
  let out := module_call (m_domain_classifier ms)
               (module_call (m_extractor ms) X) in
  CrossEntropyLoss out (domain (tensor_len out)).

Definition spec_total_loss (ms : modules_dict nn_module) (lambd : R)
    (X_source y_source X_target : tensor) : R :=
  (spec_task_loss ms X_source y_source +
   lambd * (spec_domain_loss ms X_source zeros +
            spec_domain_loss ms X_target ones))%R.

(** The history of that loss: the domain classifier sees the features
    through gradient reversal with coefficient [g]. *)
Definition spec_loss_graph (ms : modules_dict nn_module) (lambd g : R)
    (X_source y_source X_target : tensor) : snode :=
  let disc X := Call domain_classifier
                  (GradReverse g (Call extractor (Leaf X))) in
  let out X := module_call (m_domain_classifier ms)
                 (module_call (m_extractor ms) X) in
  Add (CrossEntropy (Call classifier (Call extractor (Leaf X_source))) y_source)
      (Mul lambd
         (Add (CrossEntropy (disc X_source) (zeros (tensor_len (out X_source))))
              (CrossEntropy (disc X_target) (ones (tensor_len (out X_target)))))).

End SpecLoss.

(* ================================================================== *)
(** * Concrete instances for the examples *)
(* ================================================================== *)

Definition sum_entries (l : list R) : R := foldr Rplus 0%R l.

(** A framework whose modules are numbered identities, a positive
    number being the module's [num_classes] attribute, and whose
    optimizer counts its steps.  As run, a module counts its calls and
    refuses an empty input; the accuracy metric refuses fewer than two
    classes, and predictions and targets of different lengths. *)
Definition toy_torch : Torch := {|
  nn_module := nat;
  getattr := fun m name =>
    if decide (name = "num_classes" /\ 0 < m) then Some (PyInt (Z.of_nat m))
    else None;
  module_call := fun _ x => x;
  train := fun m => m;
  eval := fun m => m;
  CrossEntropyLoss := fun input target =>
    (sum_entries (data input) + sum_entries (data target))%R;
  argmax1 := fun x => x;
  mean_compute := sum_entries;
  accuracy_compute := fun _ => 1%R;
  adam_state := nat;
  Adam_new := fun _ _ _ _ => Ok 0;
  Accuracy_new := fun k =>
    match k with
    | PyInt z =>
        if decide (2 <= z)%Z then Ok ()
        else Raise (ValueError "Expected argument `num_classes` to be an integer larger than 1")
    | PyNone =>
        Raise (ValueError "Expected argument `num_classes` to be an integer larger than 1")
    end;
  zero_grad := fun _ ms => ms;
  backward := fun _ ms => ms;
  adam_step := fun _ _ _ s ms => (S s, map_modules S ms);
  run_module := fun m x =>
    if decide (length (data x) = 0) then Raise (RuntimeError "empty input")
    else Ok (S m, x);
  run_loss_fn := fun input target =>
    Ok (sum_entries (data input) + sum_entries (data target))%R;
  run_argmax1 := fun x => Ok x;
  mean_update := fun _ => Ok ();
  accuracy_update := fun pred target =>
    if decide (tensor_len pred = tensor_len target) then Ok ()
    else Raise (ValueError "preds and target differ in their first dimension")
|}.

(** The loaders of the specification's example: ten source batches and
    four target batches, told apart by their features. *)
Definition numbered_batch (i : Z) : batch :=
  [Tensor [1; 1] [IZR i]; Tensor [1] [0%R]].

Definition numbered_loader (n : Z) : DataLoader :=
  {| batches := numbered_batch <$> seqZ 0 n;
     need_to_set_epoch := false; sampler_epoch := 0 |}.

(** Inherited methods that do nothing. *)
Definition toy_hooks : @Hooks toy_torch := {|
  on_reveive_dataloader := fun _ loader _ => Ok loader;
  before_training_epoch := fun self _ _ => Ok self;
  before_training_step := fun self _ _ => Ok self;
  after_training_step := fun self _ _ => Ok self;
  after_training_epoch := fun self _ _ => Ok self;
  before_validation_epoch := fun self _ _ => Ok self;
  before_validation_step := fun self _ _ => Ok self;
  after_validation_step := fun self _ _ => Ok self;
  after_validation_epoch := fun self _ _ => Ok self
|}.

(** A trainer over [toy_torch], as [DANNTrainer_init] builds it. *)
Definition toy_trainer (adaptive main : bool) : @trainer toy_torch :=
  @Trainer toy_torch
    {| m_extractor := 0; m_classifier := 0; m_domain_classifier := 0 |}
    1 main 0.0001 0 1 adaptive (PyInt 2)
    (@Build_Adam toy_torch [extractor; classifier; domain_classifier]
       0.0001 0 0)
    [7%R] [] [] [] [] [] [].

(** Metadata cells that are strings and arrays that are lists of
    integers. *)
Definition toy_cells : Cells :=
  {| cell := string; ndarray := list Z; str := fun s => s |}.

Definition toy_row : list (string * string) :=
  [("subject_id", "1"); ("clip_id", "P01_0"); ("valence", "5")].

Definition toy_dataset : @AMIGOSDataset toy_cells :=
  @Build_AMIGOSDataset toy_cells
    [toy_row] {["P01_0" := [1; 2; 3]%Z]} "./data_preprocessed" 128 0 14 16
    (Some (map Z.succ)) None None "./io/amigos" true.

(** A chunker that finds one chunk under every root. *)
Definition toy_slice (root_path : string)
    (chunk_size overlap channel_num trial_num : Z)
    (transform : option (list Z -> list Z))
  : result (list (@chunk toy_cells)) :=
  Ok [@Build_chunk toy_cells "P01_0" toy_row [1; 2; 3]%Z].

(** A source batch (features, labels), and target batches with the same
    features, with and without labels. *)
Definition toy_features (v : R) : tensor := Tensor [1; 1] [v].
Definition toy_source_batch : list tensor := [toy_features 1; Tensor [1] [0%R]].
Definition toy_target_batch : list tensor := [toy_features 2].
Definition toy_labelled_target_batch : list tensor :=
  [toy_features 2; Tensor [1] [1%R]].

(** A dataset whose only metadata row has no [clip_id] column. *)
Definition toy_dataset_without_clip_id : @AMIGOSDataset toy_cells :=
  @Build_AMIGOSDataset toy_cells
    [[("subject_id", "1"); ("valence", "5")]] {["P01_0" := [1; 2; 3]%Z]}
    "./data_preprocessed" 128 0 14 16 None None None "./io/amigos" true.

(* ================================================================== *)
(** * Gradient reversal *)
(* ================================================================== *)

(** C1.  For every tensor [x] and scalar [alpha], the forward pass of
    gradient reversal returns [x] unchanged, whatever [alpha] is, and
    the backward pass that follows it maps an incoming gradient [g] to
    [-alpha * g], with no gradient ([None]) for [alpha]. *)
Theorem gradient_reverse_forward_backward
    (c : GradientReverse.ctx) (x g : tensor) (a : R) :
  snd (GradientReverse.forward c x a) = x /\
  GradientReverse.apply x a = x /\
  GradientReverse.backward (fst (GradientReverse.forward c x a)) g
    = Some (scale (- a) g, None).
Proof.
  split_and!; [by destruct x..|].
  unfold GradientReverse.backward, mul_scalar, neg, scale; cbn.
  do 3 f_equal. rewrite map_map. apply map_ext. intros v. lra.
Qed.

(* ================================================================== *)
(** * The pairing of the loaders *)
(* ================================================================== *)

Lemma succ_mod (k n : nat) :
  n <> 0 ->
  S k `mod` n = if decide (n <= S (k `mod` n)) then 0 else S (k `mod` n).
Proof.
  intros Hn.
  pose proof (Nat.div_mod_eq k n) as Hk.
  pose proof (Nat.mod_upper_bound k n Hn) as Hr.
  case_decide as Hle.
  - symmetry. apply (Nat.mod_unique _ _ (S (k `div` n))); [lia|]. nia.
  - symmetry. apply (Nat.mod_unique _ _ (k `div` n)); [lia|]. nia.
Qed.

Section ItertoolsFacts.
Context {A : Type}.
Implicit Types (xs ys : list A) (c : cycle_state (A:=A)).

Lemma cycle_at_start ys : cycle_at ys 0 (cycle ys).
Proof. left. cbn. rewrite drop_0, take_0. split_and!; [lia|done..]. Qed.

(** A cycle over a non-empty list always yields, and what it yields
    after [k] elements is the element at [k mod len]. *)
Lemma cycle_next_at ys k c :
  ys <> [] -> cycle_at ys k c ->
  exists y c', cycle_next c = (Some y, c') /\
               ys !! (k `mod` length ys) = Some y /\
               cycle_at ys (S k) c'.
Proof.
  intros Hne [(Hk & Hit & Hsaved & Hidx) | (_ & Hit & Hsaved & Hidx)].
  - destruct (decide (k < length ys)) as [Hlt | Hge].
    + destruct (lookup_lt_is_Some_2 ys k Hlt) as [y Hy].
      exists y, {| it := Some (drop (S k) ys);
                   saved := take (S k) ys; index := 0 |}.
      unfold cycle_next. rewrite Hit, (drop_S _ _ _ Hy), Hsaved, Hidx.
      rewrite Nat.mod_small by done.
      rewrite <- (take_S_r _ _ _ Hy). split_and!; [done..|].
      left. cbn. split_and!; [lia|done..].
    + assert (k = length ys) as -> by lia.
      destruct ys as [|y0 ys']; [done|].
      exists y0, {| it := None; saved := y0 :: ys';
                    index := if decide (length (y0 :: ys') <= 1) then 0 else 1 |}.
      unfold cycle_next. rewrite Hit, drop_all, Hsaved, Hidx, firstn_all.
      rewrite Nat.Div0.mod_same. split_and!; [done..|].
      right. cbn [it saved index]. split_and!; [done..|].
      by rewrite succ_mod, Nat.Div0.mod_same.
  - assert (length ys <> 0) as Hn by (by destruct ys).
    pose proof (Nat.mod_upper_bound k _ Hn) as Hr.
    destruct (lookup_lt_is_Some_2 ys _ Hr) as [y Hy].
    exists y, {| it := None; saved := ys;
                 index := if decide (length ys <= S (k `mod` length ys))
                          then 0 else S (k `mod` length ys) |}.
    unfold cycle_next. rewrite Hit, Hsaved, Hidx, Hy.
    split_and!; [done..|]. right. cbn [it saved index].
    split_and!; [done..|]. by rewrite succ_mod.
Qed.

(** A cycle over the empty list never yields. *)
Lemma cycle_next_nil : fst (cycle_next (cycle (@nil A))) = None.
Proof. reflexivity. Qed.

Lemma zip_list_cycle_length xs ys k c :
  ys <> [] -> cycle_at ys k c -> length (zip_list_cycle xs c) = length xs.
Proof.
  intros Hne. revert k c. induction xs as [|x xs IH]; intros k c Hc; [done|].
  destruct (cycle_next_at ys k c Hne Hc) as (y & c' & Hnext & _ & Hc').
  cbn. rewrite Hnext. cbn. f_equal. eauto.
Qed.

Lemma zip_list_cycle_lookup xs ys k c i x :
  ys <> [] -> cycle_at ys k c -> xs !! i = Some x ->
  exists y, ys !! ((k + i) `mod` length ys) = Some y /\
            zip_list_cycle xs c !! i = Some (x, y).
Proof.
  intros Hne. revert k c i.
  induction xs as [|x0 xs IH]; intros k c i Hc Hi; [done|].
  destruct (cycle_next_at ys k c Hne Hc) as (y & c' & Hnext & Hy & Hc').
  cbn. rewrite Hnext. destruct i as [|i]; cbn in *.
  - simplify_eq. exists y. by rewrite Nat.add_0_r.
  - destruct (IH (S k) c' i Hc' Hi) as (y' & Hy' & Hz).
    exists y'. split; [|done]. by rewrite <- Nat.add_succ_comm.
Qed.

Lemma zip_cycle_list_length xs ys k c :
  xs <> [] -> cycle_at xs k c -> length (zip_cycle_list c ys) = length ys.
Proof.
  intros Hne. revert k c. induction ys as [|y ys IH]; intros k c Hc;
    destruct (cycle_next_at xs k c Hne Hc) as (x & c' & Hnext & _ & Hc');
    cbn; rewrite Hnext; [done|].
  cbn. f_equal. eauto.
Qed.

Lemma zip_cycle_list_lookup xs ys k c i y :
  xs <> [] -> cycle_at xs k c -> ys !! i = Some y ->
  exists x, xs !! ((k + i) `mod` length xs) = Some x /\
            zip_cycle_list c ys !! i = Some (x, y).
Proof.
  intros Hne. revert k c i.
  induction ys as [|y0 ys IH]; intros k c i Hc Hi; [done|].
  destruct (cycle_next_at xs k c Hne Hc) as (x & c' & Hnext & Hx & Hc').
  cbn. rewrite Hnext. destruct i as [|i]; cbn in *.
  - simplify_eq. exists x. by rewrite Nat.add_0_r.
  - destruct (IH (S k) c' i Hc' Hi) as (x' & Hx' & Hz).
    exists x'. split; [|done]. by rewrite <- Nat.add_succ_comm.
Qed.

Lemma zip_cycle_list_nil ys : zip_cycle_list (cycle (@nil A)) ys = [].
Proof. by destruct ys. Qed.

Lemma zip_list_cycle_nil xs : zip_list_cycle xs (cycle (@nil A)) = [].
Proof. by destruct xs. Qed.

End ItertoolsFacts.

Lemma enumerate_length {B : Type} (xs : list B) :
  length (enumerate xs) = length xs.
Proof. apply length_imap. Qed.

Lemma enumerate_lookup {B : Type} (xs : list B) (i : nat) :
  enumerate xs !! i = (fun x => (Z.of_nat i, x)) <$> xs !! i.
Proof. unfold enumerate. by rewrite list_lookup_imap. Qed.

(** C3, as stated, fails when exactly one loader is empty: with two
    source batches and no target batch the training loop of an epoch has
    no iteration at all, while [max(len(source), len(target))] is 2. *)
Lemma fit_training_steps_counterexample :
  length (enumerate (zip_loader (numbered_loader 2) (numbered_loader 0))) <>
  length (batches (numbered_loader 2)) `max`
    length (batches (numbered_loader 0)).
Proof. vm_compute. discriminate. Qed.

(** The iterations of the training loop: when neither loader is empty,
    or both are, there are [max(len(source), len(target))] of them, the
    [i]-th pairing source batch [i mod len(source)] with target batch
    [i mod len(target)]. *)
Lemma zip_loader_steps (source_loader target_loader : DataLoader) :
  let s := batches source_loader in
  let t := batches target_loader in
  let steps := enumerate (zip_loader source_loader target_loader) in
  (s = [] <-> t = []) ->
  length steps = length s `max` length t /\
  (forall i, i < length s `max` length t ->
     exists sb tb,
       s !! (i `mod` length s) = Some sb /\
       t !! (i `mod` length t) = Some tb /\
       steps !! i = Some (Z.of_nat i, (sb, tb))) /\
  (length s = 10 -> length t = 4 ->
     exists t0 t1 t2 t3,
       t = [t0; t1; t2; t3] /\
       (fun step => step.2.2) <$> steps =
         [t0; t1; t2; t3; t0; t1; t2; t3; t0; t1] /\
       (fun step => step.2.1) <$> steps = s /\
       (fun step => step.1) <$> steps = seqZ 0 10).
Proof.
  intros s t steps Hempty.
  assert (length steps = length s `max` length t /\
          forall i, i < length s `max` length t ->
            exists sb tb,
              s !! (i `mod` length s) = Some sb /\
              t !! (i `mod` length t) = Some tb /\
              steps !! i = Some (Z.of_nat i, (sb, tb))) as [Hlen Hpair].
  { subst steps. unfold zip_loader. fold s t.
    destruct (decide (t = [])) as [Ht | Ht].
    - assert (s = []) as Hs by tauto. rewrite Hs, Ht. cbn.
      split; [done | intros i Hi; lia].
    - assert (s <> []) as Hs by tauto.
      assert (0 < length s) as Hls by (destruct s; [done | cbn; lia]).
      assert (0 < length t) as Hlt by (destruct t; [done | cbn; lia]).
      case_decide as Hcmp.
      + rewrite enumerate_length.
        rewrite (zip_list_cycle_length s t 0 _ Ht (cycle_at_start t)).
        split; [lia|]. intros i Hi.
        rewrite Nat.max_l in Hi by lia.
        destruct (lookup_lt_is_Some_2 s i Hi) as [sb Hsb].
        destruct (zip_list_cycle_lookup s t 0 _ i sb Ht (cycle_at_start t) Hsb)
          as (tb & Htb & Hz).
        exists sb, tb. rewrite Nat.mod_small by done.
        rewrite enumerate_lookup, Hz. done.
      + rewrite enumerate_length.
        rewrite (zip_cycle_list_length s t 0 _ Hs (cycle_at_start s)).
        split; [lia|]. intros i Hi.
        rewrite Nat.max_r in Hi by lia.
        destruct (lookup_lt_is_Some_2 t i Hi) as [tb Htb].
        destruct (zip_cycle_list_lookup s t 0 _ i tb Hs (cycle_at_start s) Htb)
          as (sb & Hsb & Hz).
        exists sb, tb. rewrite (Nat.mod_small i (length t)) by done.
        rewrite enumerate_lookup, Hz. done. }
  split_and!; [done..|].
  intros H10 H4. subst steps. unfold zip_loader. fold s t.
  rewrite decide_True by lia. clear Hlen Hpair Hempty.
  destruct t as [|t0 [|t1 [|t2 [|t3 [|? ?]]]]]; try discriminate.
  do 10 (destruct s as [|? s]; [discriminate|]).
  destruct s; [|discriminate].
  by exists t0, t1, t2, t3.
Qed.

(* ================================================================== *)
(** * The trainer *)
(* ================================================================== *)

Section DANNTrainerFacts.
Context `{!Torch}.
Implicit Types (self : trainer) (sb tb : batch).

Lemma grad_reverse_value (x : var) (a : R) :
  value (grad_reverse x a) = value x.
Proof. destruct x as [[sh d] g]. reflexivity. Qed.

(** [optimizer.step()] touches the modules and the optimizer only. *)
Lemma optimizer_step_frame self :
  let self' := optimizer_step self in
  modules self' =
    (adam_step (params (optimizer self)) (opt_lr (optimizer self))
       (opt_weight_decay (optimizer self)) (opt_state (optimizer self))
       (modules self)).2 /\
  params (optimizer self') = params (optimizer self) /\
  train_loss self' = train_loss self /\
  train_accuracy self' = train_accuracy self /\
  logs self' = logs self /\
  is_main self' = is_main self /\
  world_size self' = world_size self /\
  lambd self' = lambd self.
Proof. unfold optimizer_step. cbn. by destruct adam_step. Qed.

Lemma gamma_ok self (batch_id num_batches epoch_id num_epochs : Z) :
  (adaption_factor self = true -> num_epochs <> 0%Z /\ num_batches <> 0%Z) ->
  gamma self batch_id num_batches epoch_id num_epochs =
    Ok (if adaption_factor self
        then spec_coefficient
               (spec_progress batch_id num_batches epoch_id num_epochs)
        else 1%R).
Proof.
  intros Hnz. unfold gamma. destruct (adaption_factor self); [|done].
  destruct Hnz as [He Hb]; [done|].
  unfold truediv. rewrite decide_False by done. cbn.
  rewrite decide_False by done. cbn.
  unfold spec_coefficient, spec_progress.
  replace (IZR (batch_id + epoch_id * num_batches) / IZR num_epochs /
           IZR num_batches)%R
    with (IZR (batch_id + epoch_id * num_batches) /
          IZR (num_epochs * num_batches))%R; [done|].
  rewrite (mult_IZR num_epochs). field. split; by apply not_0_IZR.
Qed.

(** What a training step that raises nothing leaves behind. *)
Lemma on_training_step_ok self sb tb
    (batch_id num_batches epoch_id num_epochs : Z) (X_source y_source X_target : tensor) :
  sb !! 0 = Some X_source -> sb !! 1 = Some y_source ->
  tb !! 0 = Some X_target ->
  (adaption_factor self = true -> num_epochs <> 0%Z /\ num_batches <> 0%Z) ->
  ceil_div5 num_batches <> 0%Z ->
  let ms := zero_grad (params (optimizer self)) (modules self) in
  exists (g : R) (loss : loss_var) (self' : trainer),
    gamma self batch_id num_batches epoch_id num_epochs = Ok g /\
    item loss = spec_total_loss ms (lambd self) X_source y_source X_target /\
    loss_grad_fn loss =
      spec_loss_graph ms (lambd self) g X_source y_source X_target /\
    on_training_step self sb tb batch_id num_batches epoch_id num_epochs
      = Ok self' /\
    modules self' =
      (adam_step (params (optimizer self)) (opt_lr (optimizer self))
         (opt_weight_decay (optimizer self)) (opt_state (optimizer self))
         (backward (loss_grad_fn loss) ms)).2 /\
    params (optimizer self') = params (optimizer self) /\
    let sampled :=
      bool_decide ((batch_id `mod` ceil_div5 num_batches)%Z = 0%Z) in
    let pred := module_call (m_classifier ms)
                  (module_call (m_extractor ms) X_source) in
    train_loss self' = (if sampled then [item loss] else []) /\
    train_accuracy self' =
      (if sampled then [(argmax1 pred, y_source)] else []) /\
    logs self' =
      logs self ++
      (if sampled && is_main self
       then [{| log_loss := mean_compute [item loss];
                log_accuracy :=
                  (100 * accuracy_compute [(argmax1 pred, y_source)])%R;
                log_batch_id := (batch_id * world_size self)%Z;
                log_num_batches := (num_batches * world_size self)%Z |}]
       else []).
Proof.
  intros Hxs Hys Hxt Hnz Hlog ms.
  pose proof (gamma_ok self batch_id num_batches epoch_id num_epochs Hnz) as Hg.
  set (g := if adaption_factor self then _ else _) in Hg.
  eassert (on_training_step self sb tb batch_id num_batches epoch_id num_epochs
           = _) as Hrun.
  { unfold on_training_step, getitem_tuple, pymod. cbv zeta.
    rewrite Hxs, Hys, Hxt. cbn [mbind result_bind].
    change (gamma (set_modules _ _) batch_id num_batches epoch_id num_epochs)
      with (gamma self batch_id num_batches epoch_id num_epochs).
    rewrite Hg. cbn [mbind result_bind].
    rewrite (decide_False (P := ceil_div5 num_batches = 0%Z)) by done.
    cbn [mbind result_bind]. reflexivity. }
  match type of Hrun with
  | context [backward (loss_grad_fn ?l) _] => set (loss := l) in *
  end.
  match type of Hrun with
  | context [optimizer_step ?s] => set (s1 := s) in *
  end.
  destruct (optimizer_step_frame s1)
    as (Hm & Hp & Htl & Hta & Hlg & Him & Hws & _).
  assert (item loss = spec_total_loss ms (lambd self) X_source y_source X_target)
    as Hitem.
  { subst loss. cbn. unfold spec_total_loss, spec_task_loss, spec_domain_loss.
    by destruct (module_call _ X_source), (module_call _ X_target). }
  assert (loss_grad_fn loss =
            spec_loss_graph ms (lambd self) g X_source y_source X_target)
    as Hgraph.
  { subst loss. cbn. unfold spec_loss_graph.
    by destruct (module_call _ X_source), (module_call _ X_target). }
  exists g, loss. rewrite Hrun. clear Hrun.
  case_decide as Hs.
  - rewrite (bool_decide_eq_true_2 _ Hs). cbn [andb].
    cbn [is_main set_train_loss set_train_accuracy].
    rewrite Him. change (is_main s1) with (is_main self).
    destruct (is_main self); eexists; split_and!; try done;
      cbn; rewrite ?Htl, ?Hta, ?Hlg, ?Hws, ?Hm, ?Hp, ?app_nil_r; done.
  - rewrite (bool_decide_eq_false_2 _ Hs). cbn [andb].
    eexists; split_and!; try done;
      rewrite ?Htl, ?Hta, ?Hlg, ?Hm, ?Hp; cbn; by rewrite ?app_nil_r.
Qed.

Lemma ceil_div5_pos (n : Z) : (0 < n)%Z -> (0 < ceil_div5 n)%Z.
Proof.
  intros Hn. unfold ceil_div5.
  assert (- n / 5 < 0)%Z; [|lia].
  apply Z.div_lt_upper_bound; lia.
Qed.

(** The optimizer [__init__] builds holds the parameters of the three
    modules, and a training step keeps it so. *)
Lemma DANNTrainer_init_optimizer
    (extractor_ classifier_ domain_classifier_ : nn_module)
    (lambd_ : R) (adaption_factor_ : bool) (num_classes_ : pyval)
    (lr_ weight_decay_ : R) (parent : result (Z * bool)) self :
  DANNTrainer_init extractor_ classifier_ domain_classifier_ lambd_
    adaption_factor_ num_classes_ lr_ weight_decay_ parent = Ok self ->
  params (optimizer self) = [extractor; classifier; domain_classifier].
Proof.
  unfold DANNTrainer_init. destruct parent as [[ws im]|]; [cbn|done].
  destruct (match num_classes_ with PyNone => _ | PyInt _ => _ end)
    as [k|]; [cbn|done].
  destruct (Adam_new _ _ _ _) as [m|]; [cbn|done].
  destruct (Accuracy_new k) as [[]|]; [cbn|done].
  by intros [= <-].
Qed.


(** C4.  With the adaptive schedule the reversal coefficient of a step
    is [2/(1+exp(-10p)) - 1], where
    [p = (batch_id + epoch_id * num_batches) / (num_epochs * num_batches)];
    without it the coefficient is 1.  At [p = 0] the adaptive
    coefficient is 0, at [p = 1/2] it is [2/(1+exp(-5)) - 1]. *)
Theorem reversal_coefficient_schedule self
    (batch_id num_batches epoch_id num_epochs : Z) :
  let p := (IZR (batch_id + epoch_id * num_batches) /
            IZR (num_epochs * num_batches))%R in
  let gamma_ := gamma self batch_id num_batches epoch_id num_epochs in
  (adaption_factor self = false -> gamma_ = Ok 1%R) /\
  (adaption_factor self = true -> num_epochs <> 0%Z -> num_batches <> 0%Z ->
     gamma_ = Ok (2 / (1 + exp (-10 * p)) - 1)%R /\
     (p = 0%R -> gamma_ = Ok 0%R) /\
     (p = (1 / 2)%R -> gamma_ = Ok (2 / (1 + exp (-5)) - 1)%R)).
Proof.
  intros p gamma_. split.
  - intros Ha. subst gamma_. unfold gamma. by rewrite Ha.
  - intros Ha He Hb.
    assert (gamma_ = Ok (2 / (1 + exp (-10 * p)) - 1)%R) as Hg.
    { subst gamma_. rewrite gamma_ok by done. by rewrite Ha. }
    split_and!; [done| |]; intros Hp; rewrite Hg, Hp; f_equal.
    + rewrite Rmult_0_r, exp_0. lra.
    + by replace (-10 * (1 / 2))%R with (-5)%R by lra.
Qed.

(** C6.  A training step reads the target batch through its first
    element only: two target batches with the same features give the
    same step, whatever else they carry. *)
Theorem training_step_ignores_target_labels self sb
    (tb1 tb2 : list tensor) (batch_id num_batches epoch_id num_epochs : Z) :
  tb1 !! 0 = tb2 !! 0 ->
  on_training_step self sb tb1 batch_id num_batches epoch_id num_epochs =
  on_training_step self sb tb2 batch_id num_batches epoch_id num_epochs.
Proof.
  intros Hfeat. unfold on_training_step, getitem_tuple. by rewrite Hfeat.
Qed.

(** What [__init__] takes as the number of classes: the argument when
    it is given, else the classifier's attribute. *)
Lemma DANNTrainer_init_resolved
    (extractor_ classifier_ domain_classifier_ : nn_module)
    (lambd_ : R) (adaption_factor_ : bool) (num_classes_ : pyval)
    (lr_ weight_decay_ : R) (world_size_ : Z) (is_main_ : bool) (k : pyval) :
  (exists z, num_classes_ = PyInt z /\ k = PyInt z) \/
  (num_classes_ = PyNone /\ getattr classifier_ "num_classes" = Some k) ->
  DANNTrainer_init extractor_ classifier_ domain_classifier_ lambd_
    adaption_factor_ num_classes_ lr_ weight_decay_
    (Ok (world_size_, is_main_)) =
  (moments ← Adam_new [extractor; classifier; domain_classifier]
               {| m_extractor := extractor_; m_classifier := classifier_;
                  m_domain_classifier := domain_classifier_ |}
               lr_ weight_decay_;
   Accuracy_new k;; Accuracy_new k;; Accuracy_new k;;
   Ok {| modules := {| m_extractor := extractor_;
                       m_classifier := classifier_;
                       m_domain_classifier := domain_classifier_ |};
         world_size := world_size_; is_main := is_main_;
         lr := lr_; weight_decay := weight_decay_; lambd := lambd_;
         adaption_factor := adaption_factor_; num_classes := k;
         optimizer := {| params := [extractor; classifier; domain_classifier];
                         opt_lr := lr_; opt_weight_decay := weight_decay_;
                         opt_state := moments |};
         train_loss := []; train_accuracy := [];
         val_loss := []; val_accuracy := [];
         test_loss := []; test_accuracy := []; logs := [] |}).
Proof.
  unfold DANNTrainer_init. cbn.
  intros [(z & -> & ->) | [-> Hattr]]; [done|]. by rewrite Hattr.
Qed.

(** C7 (amended).  Once the parent constructor has returned, the
    constructor raises [ValueError('The number of classes is not
    specified.')] when [num_classes] is [None] and the classifier has no
    [num_classes] attribute.  Otherwise it goes on with the argument
    when given and the classifier's attribute when not; it then raises
    what [torch.optim.Adam] or [torchmetrics.Accuracy] raise for the
    arguments, and when they return it returns a trainer whose
    [num_classes] is that value. *)
Theorem init_num_classes (extractor_ classifier_ domain_classifier_ : nn_module)
    (lambd_ : R) (adaption_factor_ : bool) (num_classes_ : pyval)
    (lr_ weight_decay_ : R) (world_size_ : Z) (is_main_ : bool) :
  let r := DANNTrainer_init extractor_ classifier_ domain_classifier_ lambd_
             adaption_factor_ num_classes_ lr_ weight_decay_
             (Ok (world_size_, is_main_)) in
  let adam := Adam_new [extractor; classifier; domain_classifier]
                {| m_extractor := extractor_; m_classifier := classifier_;
                   m_domain_classifier := domain_classifier_ |}
                lr_ weight_decay_ in
  (num_classes_ = PyNone -> getattr classifier_ "num_classes" = None ->
   r = Raise (ValueError "The number of classes is not specified.")) /\
  (forall k,
     (exists z, num_classes_ = PyInt z /\ k = PyInt z) \/
     (num_classes_ = PyNone /\ getattr classifier_ "num_classes" = Some k) ->
     (forall e, adam = Raise e -> r = Raise e) /\
     (forall moments e, adam = Ok moments -> Accuracy_new k = Raise e ->
        r = Raise e) /\
     (forall moments, adam = Ok moments -> Accuracy_new k = Ok () ->
        exists self, r = Ok self /\ num_classes self = k /\
                     opt_state (optimizer self) = moments /\
                     world_size self = world_size_ /\
                     is_main self = is_main_)).
Proof.
  intros r adam. split.
  - intros -> Hattr. subst r. unfold DANNTrainer_init. cbn.
    by rewrite Hattr.
  - intros k Hk. subst r adam.
    rewrite (DANNTrainer_init_resolved _ _ _ _ _ _ _ _ _ _ k Hk).
    split_and!.
    + by intros e ->.
    + intros moments e -> Hacc. cbn. by rewrite Hacc.
    + intros moments -> Hacc. cbn. rewrite Hacc. cbn. eexists.
      by split_and!.
Qed.

(** C7 as stated fails: a [num_classes] that is given does not make the
    construction succeed.  With [num_classes = 1] the classes are
    specified, and the constructor raises the [ValueError] of the
    accuracy metric, which wants at least two classes. *)
Lemma init_num_classes_counterexample :
  (exists msg,
     @DANNTrainer_init toy_torch 0 0 0 1 false (PyInt 1) 0.0001 0
       (Ok (1%Z, true)) = Raise (ValueError msg)) /\
  PyInt 1 <> PyNone.
Proof. split; [by eexists | discriminate]. Qed.


End DANNTrainerFacts.

(* ================================================================== *)
(** * One training epoch of [fit] *)
(* ================================================================== *)

(** A loop that returns has run its body once on every element, in
    order: [states] lists the state before each iteration and the
    final one. *)
Lemma for_each_trace {St X : Type} (body : St -> X -> result St)
    (xs : list X) (s s' : St) :
  for_each xs body s = Ok s' ->
  exists states : list St,
    length states = S (length xs) /\
    states !! 0 = Some s /\
    states !! length xs = Some s' /\
    forall i x, xs !! i = Some x ->
      exists a b, states !! i = Some a /\ states !! S i = Some b /\
                  body a x = Ok b.
Proof.
  revert s. induction xs as [|x xs IH]; intros s; cbn.
  - intros [= ->]. exists [s']. by split_and!.
  - destruct (body s x) as [s1|] eqn:Hbody; cbn; [|done].
    intros Hrest. destruct (IH s1 Hrest) as (states & Hlen & H0 & Hlast & Hstep).
    exists (s :: states). split_and!; cbn; [by rewrite Hlen | done | done |].
    intros [|i] y Hy; cbn in *.
    + simplify_eq. by exists s, s1.
    + by apply Hstep.
Qed.

Section FitFacts.
Context `{!Torch} `{!Hooks}.

(** C3 (amended).  When neither loader is empty, or both are, the
    training loop of one epoch of [fit] has exactly
    [max(len(source_loader), len(target_loader))] iterations, the
    [i]-th with [batch_id = i], source batch [i mod len(source)] and
    target batch [i mod len(target)]: the shorter loader is cycled from
    its start.  An epoch that returns has executed exactly these
    training steps, one after the other.  With ten source and four
    target batches the ten steps take the target batches in the order
    0,1,2,3,0,1,2,3,0,1. *)
Theorem fit_training_steps (source_loader target_loader : DataLoader) :
  let s := batches source_loader in
  let t := batches target_loader in
  let steps := enumerate (zip_loader source_loader target_loader) in
  let num_batches := length s `max` length t in
  (s = [] <-> t = []) ->
  length steps = num_batches /\
  (forall i, i < num_batches ->
     exists sb tb,
       s !! (i `mod` length s) = Some sb /\
       t !! (i `mod` length t) = Some tb /\
       steps !! i = Some (Z.of_nat i, (sb, tb))) /\
  (forall self epoch num_epochs self',
     training_epoch self source_loader target_loader epoch num_epochs
       = Ok self' ->
     exists states : list trainer,
       length states = S num_batches /\
       forall i, i < num_batches ->
         exists sb tb before after,
           s !! (i `mod` length s) = Some sb /\
           t !! (i `mod` length t) = Some tb /\
           states !! i = Some before /\
           states !! S i = Some after /\
           training_step (Z.of_nat num_batches) epoch num_epochs before
             (Z.of_nat i, (sb, tb)) = Ok after) /\
  (length s = 10 -> length t = 4 ->
     exists t0 t1 t2 t3,
       t = [t0; t1; t2; t3] /\
       (fun step => step.2.2) <$> steps =
         [t0; t1; t2; t3; t0; t1; t2; t3; t0; t1] /\
       (fun step => step.2.1) <$> steps = s /\
       (fun step => step.1) <$> steps = seqZ 0 10).
Proof.
  intros s t steps num_batches Hempty.
  destruct (zip_loader_steps source_loader target_loader Hempty)
    as (Hlen & Hpair & Hten).
  fold s t steps num_batches in Hlen, Hpair, Hten.
  split_and!; [done | done | | done].
  intros self epoch num_epochs self' Hrun.
  unfold training_epoch in Hrun. fold s t steps num_batches in Hrun.
  destruct (before_training_epoch _ _ _) as [s0|]; [|done]. cbn in Hrun.
  destruct (for_each steps _ s0) as [s1|] eqn:Hloop; [|done].
  destruct (for_each_trace _ _ _ _ Hloop) as (states & Hstates & _ & _ & Hstep).
  exists states. split; [by rewrite Hstates, Hlen|].
  intros i Hi. destruct (Hpair i Hi) as (sb & tb & Hsb & Htb & Hi').
  destruct (Hstep i _ Hi') as (a & b & Ha & Hb & Hab).
  by exists sb, tb, a, b.
Qed.

End FitFacts.

(* ================================================================== *)
(** * The dataset *)
(* ================================================================== *)

Section AMIGOSDatasetFacts.
Context `{!Cells}.
Implicit Types (self : AMIGOSDataset) (row : list (string * cell)).

(** A valid index, negative or not, selects the row at [index mod n]. *)
Lemma iloc_valid (df : list (list (string * cell))) (index : Z) row :
  let n := Z.of_nat (length df) in
  (- n <= index < n)%Z ->
  df !! Z.to_nat (index `mod` n) = Some row ->
  iloc df index = Ok row.
Proof.
  intros n Hvalid Hrow. unfold iloc. fold n.
  assert ((if decide (index < 0)%Z then (index + n)%Z else index)
          = (index `mod` n)%Z) as ->.
  { case_decide.
    - apply (Z.mod_unique _ _ (-1)); lia.
    - symmetry. apply Z.mod_small. lia. }
  rewrite decide_True, Hrow; [done|].
  apply Z.mod_pos_bound. lia.
Qed.

Lemma dict_getitem_values row (key : string) (v : cell) :
  dict_getitem row key = Ok v -> v ∈ values row.
Proof.
  unfold dict_getitem, values.
  destruct (list_find _ row) as [[i [k v']]|] eqn:Hfind; [|done].
  intros [= ->]. apply list_find_Some in Hfind as (Hi & _ & _).
  apply list_elem_of_fmap. exists (k, v). split; [done|].
  by eapply list_elem_of_lookup_2.
Qed.

(** What [__getitem__] returns at a valid index of a well-formed cache. *)
Lemma getitem_valid self (index : Z) row (clip_id : cell) (eeg : ndarray) :
  let n := Z.of_nat (length (info self)) in
  (- n <= index < n)%Z ->
  info self !! Z.to_nat (index `mod` n) = Some row ->
  dict_getitem row "clip_id" = Ok clip_id ->
  eeg_io self !! str clip_id = Some eeg ->
  getitem self index =
    Ok (match online_transform self with
        | Some f => f eeg
        | None => eeg
        end,
        match label_transform self with
        | None => values row
        | Some f =>
            match f row with
            | InfoList l => l
            | InfoDict d => values d
            | InfoOther v => [v]
            end
        end).
Proof.
  intros n Hvalid Hrow Hclip Heeg.
  unfold getitem. rewrite (iloc_valid _ _ row Hvalid Hrow). cbn.
  rewrite Hclip. cbn. unfold read_eeg. rewrite Heeg. cbn.
  destruct (label_transform self) as [f|]; [|done].
  by destruct (f row).
Qed.

(** C5.  For every valid index, [__getitem__] takes the metadata row of
    the index, reads the array stored under the row's clip identifier,
    applies the online transform to it if one is set and the label
    transform to the row if one is set, and returns the signal followed
    by the elements of a list, the values of a dict, or the single other
    value.  The result is a function of the metadata table, the cache
    contents and the two transforms, and no state is written. *)
Theorem getitem_returns self (index : Z) row (clip_id : cell) (eeg : ndarray) :
  let n := Z.of_nat (length (info self)) in
  (- n <= index < n)%Z ->
  info self !! Z.to_nat (index `mod` n) = Some row ->
  dict_getitem row "clip_id" = Ok clip_id ->
  eeg_io self !! str clip_id = Some eeg ->
  getitem self index =
    Ok (match online_transform self with
        | Some f => f eeg
        | None => eeg
        end,
        match label_transform self with
        | None => values row
        | Some f =>
            match f row with
            | InfoList l => l
            | InfoDict d => values d
            | InfoOther v => [v]
            end
        end) /\
  (forall self',
     info self' = info self -> eeg_io self' = eeg_io self ->
     online_transform self' = online_transform self ->
     label_transform self' = label_transform self ->
     getitem self' index = getitem self index).
Proof.
  intros n Hvalid Hrow Hclip Heeg. split.
  - by apply (getitem_valid self index row clip_id eeg).
  - intros self' Hi He Ho Hl. unfold getitem. by rewrite Hi, He, Ho, Hl.
Qed.

(** C10.  Without a label transform, [__getitem__] returns the signal
    followed by the value of every column of the metadata row, the clip
    identifier among them. *)
Theorem getitem_without_label_transform self (index : Z) row
    (clip_id : cell) (eeg : ndarray) :
  let n := Z.of_nat (length (info self)) in
  (- n <= index < n)%Z ->
  info self !! Z.to_nat (index `mod` n) = Some row ->
  dict_getitem row "clip_id" = Ok clip_id ->
  eeg_io self !! str clip_id = Some eeg ->
  label_transform self = None ->
  exists signal,
    getitem self index = Ok (signal, row.*2) /\
    length (row.*2) = length row /\
    clip_id ∈ row.*2.
Proof.
  intros n Hvalid Hrow Hclip Heeg Hnone.
  pose proof (getitem_valid self index row clip_id eeg Hvalid Hrow Hclip Heeg)
    as Hget.
  rewrite Hnone in Hget. eexists. split_and!; [exact Hget | | ].
  - apply length_fmap.
  - by apply (dict_getitem_values row "clip_id").
Qed.

Section Constructor.
Variable slice : string -> Z -> Z -> Z -> Z -> option (ndarray -> ndarray) ->
                 result (list chunk).

(** With a cache directory at [io_path] the constructor writes nothing. *)
Lemma amigos_constructor_existing (root_path : string)
    (chunk_size overlap channel_num trial_num : Z)
    (transform : option (ndarray -> ndarray)) (io_path : string)
    (num_worker : Z) (verbose : bool) (fs : gmap string cache) (c : cache) :
  fs !! io_path = Some c ->
  amigos_constructor slice root_path chunk_size overlap channel_num
    trial_num transform io_path num_worker verbose fs = Ok (fs, []).
Proof. intros Hc. unfold amigos_constructor. by rewrite Hc. Qed.

(** A construction that returns leaves a cache directory at [io_path]. *)
Lemma amigos_constructor_creates (root_path : string)
    (chunk_size overlap channel_num trial_num : Z)
    (transform : option (ndarray -> ndarray)) (io_path : string)
    (num_worker : Z) (verbose : bool) (fs fs' : gmap string cache)
    (writes : list string) :
  amigos_constructor slice root_path chunk_size overlap channel_num
    trial_num transform io_path num_worker verbose fs = Ok (fs', writes) ->
  is_Some (fs' !! io_path).
Proof.
  unfold amigos_constructor. destruct (fs !! io_path) eqn:Hc.
  - intros [= <- _]. by rewrite Hc.
  - destruct slice; [|done]. cbn. intros [= <- _].
    by rewrite lookup_insert_eq.
Qed.

(** C9.  After a construction that returned, a second construction with
    the same root path, chunk size, overlap, channel count, trial count,
    offline transform and cache path performs no chunk write and leaves
    the cache as it is; the dataset it returns reads the same metadata
    table and the same chunk store. *)
Theorem AMIGOSDataset_init_idempotent (root_path : string)
    (chunk_size overlap channel_num trial_num : Z)
    (online_transform offline_transform : option (ndarray -> ndarray))
    (label_transform : option (list (string * cell) -> info_value))
    (io_path : string) (num_worker : Z) (verbose : bool)
    (fs fs' : gmap string cache) (self : AMIGOSDataset)
    (writes : list string) :
  AMIGOSDataset_init slice root_path chunk_size overlap channel_num trial_num
    online_transform offline_transform label_transform io_path num_worker
    verbose fs = Ok (self, fs', writes) ->
  AMIGOSDataset_init slice root_path chunk_size overlap channel_num trial_num
    online_transform offline_transform label_transform io_path num_worker
    verbose fs' = Ok (self, fs', []).
Proof.
  unfold AMIGOSDataset_init.
  destruct (amigos_constructor _ _ _ _ _ _ _ _ _ _ fs)
    as [[fs1 w]|] eqn:Hfirst; [|done].
  cbn. destruct (amigos_constructor_creates _ _ _ _ _ _ _ _ _ _ _ _ Hfirst)
    as [c Hc].
  unfold base_dataset_init. rewrite Hc. cbn. intros [= <- <- <-].
  rewrite (amigos_constructor_existing _ _ _ _ _ _ _ _ _ _ c Hc). cbn.
  by rewrite Hc.
Qed.

End Constructor.
End AMIGOSDatasetFacts.

(* ================================================================== *)
(** * More on gradient reversal and the reversal coefficient *)
(* ================================================================== *)

(** X1.  Gradient reversal composes: sending a gradient [g] through the
    backward pass of a reversal with coefficient [a] and then through
    one with coefficient [b] gives [(a * b) * g], of the shape of [g];
    two reversals with coefficient 1 give [g] back. *)
Theorem gradient_reverse_twice (c : GradientReverse.ctx) (x g : tensor)
    (a b : R) :
  exists g1 g2,
    GradientReverse.backward (GradientReverse.forward c x a).1 g
      = Some (g1, None) /\
    GradientReverse.backward (GradientReverse.forward c x b).1 g1
      = Some (g2, None) /\
    g2 = scale (a * b) g /\
    shape g2 = shape g /\
    length (data g2) = length (data g) /\
    (a = 1%R -> b = 1%R -> g2 = g).
Proof.
  eexists _, _. split_and!; [reflexivity | reflexivity | | | |].
  - unfold mul_scalar, neg, scale; cbn. f_equal.
    rewrite !map_map. apply map_ext. intros v. lra.
  - reflexivity.
  - cbn. by rewrite !length_map.
  - intros -> ->. destruct g as [sh d]. unfold mul_scalar, neg; cbn. f_equal.
    rewrite !map_map. rewrite <- (map_id d) at 2. apply map_ext. intros v. lra.
Qed.

Lemma spec_coefficient_range (p : R) :
  (0 <= p)%R -> (0 <= spec_coefficient p < 1)%R.
Proof.
  intros Hp. unfold spec_coefficient.
  pose proof (exp_pos (-10 * p)) as Hpos.
  assert (exp (-10 * p) <= 1)%R as Hle.
  { destruct (Req_dec p 0) as [-> | Hnz].
    - rewrite Rmult_0_r, exp_0. lra.
    - rewrite <- exp_0. left. apply exp_increasing. lra. }
  set (e := exp (-10 * p)) in *.
  assert (0 < / (1 + e))%R as Hinv by (apply Rinv_0_lt_compat; lra).
  assert ((1 + e) * / (1 + e) = 1)%R as Hone by (apply Rinv_r; lra).
  unfold Rdiv. set (i := (/ (1 + e))%R) in *. nra.
Qed.

Lemma spec_coefficient_increasing (p q : R) :
  (p < q)%R -> (spec_coefficient p < spec_coefficient q)%R.
Proof.
  intros Hpq. unfold spec_coefficient.
  pose proof (exp_pos (-10 * q)) as Hpos.
  assert (exp (-10 * q) < exp (-10 * p))%R as Hlt
    by (apply exp_increasing; lra).
  assert (/ (1 + exp (-10 * p)) < / (1 + exp (-10 * q)))%R
    by (apply Rinv_lt_contravar; nra).
  unfold Rdiv. lra.
Qed.

Lemma spec_progress_nonneg (batch_id num_batches epoch_id num_epochs : Z) :
  (0 <= batch_id)%Z -> (0 < num_batches)%Z ->
  (0 <= epoch_id)%Z -> (0 < num_epochs)%Z ->
  (0 <= spec_progress batch_id num_batches epoch_id num_epochs)%R.
Proof.
  intros Hb Hn He Hne. unfold spec_progress.
  assert (0 <= IZR (batch_id + epoch_id * num_batches))%R
    by (apply IZR_le; nia).
  assert (0 < IZR (num_epochs * num_batches))%R by (apply IZR_lt; nia).
  apply Rmult_le_pos; [done|]. left. by apply Rinv_0_lt_compat.
Qed.

Section ReversalCoefficientFacts.
Context `{!Torch}.
Implicit Types self : trainer.

(** X2.  On every step that [fit] runs ([0 <= batch_id < num_batches],
    [0 <= epoch_id < num_epochs]) the adaptive reversal coefficient is
    computed without error and lies in [[0, 1)]: it never reaches the
    fixed coefficient 1 and never turns the gradient back to its
    original sign. *)
Theorem reversal_coefficient_range self
    (batch_id num_batches epoch_id num_epochs : Z) :
  adaption_factor self = true ->
  (0 <= batch_id < num_batches)%Z -> (0 <= epoch_id < num_epochs)%Z ->
  exists g, gamma self batch_id num_batches epoch_id num_epochs = Ok g /\
            (0 <= g < 1)%R.
Proof.
  intros Ha Hb He. rewrite gamma_ok by lia. rewrite Ha.
  eexists. split; [done|].
  apply spec_coefficient_range, spec_progress_nonneg; lia.
Qed.

(** X3.  Over the steps that [fit] runs
    ([0 <= batch_id < num_batches], [0 <= epoch_id < num_epochs]) the
    adaptive reversal coefficient grows strictly: of two such steps, the
    one with the larger [batch_id + epoch_id * num_batches] gets the
    strictly larger coefficient. *)
Theorem reversal_coefficient_increasing self
    (batch_id batch_id' num_batches epoch_id epoch_id' num_epochs : Z) :
  adaption_factor self = true ->
  (0 <= batch_id < num_batches)%Z -> (0 <= epoch_id < num_epochs)%Z ->
  (0 <= batch_id' < num_batches)%Z -> (0 <= epoch_id' < num_epochs)%Z ->
  (batch_id + epoch_id * num_batches
   < batch_id' + epoch_id' * num_batches)%Z ->
  exists g g',
    gamma self batch_id num_batches epoch_id num_epochs = Ok g /\
    gamma self batch_id' num_batches epoch_id' num_epochs = Ok g' /\
    (g < g')%R.
Proof.
  intros Ha Hb He Hb' He' Hlt. rewrite !gamma_ok by lia. rewrite Ha.
  eexists _, _. split_and!; [done..|].
  apply spec_coefficient_increasing. unfold spec_progress.
  assert (0 < IZR (num_epochs * num_batches))%R by (apply IZR_lt; nia).
  apply Rmult_lt_compat_r; [by apply Rinv_0_lt_compat | by apply IZR_lt].
Qed.

End ReversalCoefficientFacts.

(* ================================================================== *)
(** * More on the training step *)
(* ================================================================== *)

Lemma ceil_div5_zero (n : Z) : ceil_div5 n = 0%Z <-> (-5 < n <= 0)%Z.
Proof.
  unfold ceil_div5.
  pose proof (Z.div_mod (- n) 5 ltac:(lia)) as Hdm.
  pose proof (Z.mod_pos_bound (- n) 5 ltac:(lia)) as Hmod.
  lia.
Qed.

(** [ceil_div5 n] is the least integer that is at least [n / 5]. *)
Lemma ceil_div5_bounds (n : Z) : (n <= 5 * ceil_div5 n < n + 5)%Z.
Proof.
  unfold ceil_div5.
  pose proof (Z.div_mod (- n) 5 ltac:(lia)) as Hdm.
  pose proof (Z.mod_pos_bound (- n) 5 ltac:(lia)) as Hmod.
  lia.
Qed.

Section TrainingStepFacts.
Context `{!Torch}.
Implicit Types (self : trainer) (sb tb : list tensor).

(** [optimizer.step()] keeps everything but the modules and Adam's
    moments. *)
Lemma optimizer_step_keeps self :
  let self' := optimizer_step self in
  params (optimizer self') = params (optimizer self) /\
  opt_lr (optimizer self') = opt_lr (optimizer self) /\
  opt_weight_decay (optimizer self') = opt_weight_decay (optimizer self) /\
  lr self' = lr self /\ weight_decay self' = weight_decay self /\
  lambd self' = lambd self /\
  adaption_factor self' = adaption_factor self /\
  num_classes self' = num_classes self /\
  world_size self' = world_size self /\ is_main self' = is_main self /\
  val_loss self' = val_loss self /\ val_accuracy self' = val_accuracy self /\
  test_loss self' = test_loss self /\
  test_accuracy self' = test_accuracy self.
Proof. unfold optimizer_step. cbn. by destruct adam_step. Qed.

(** X5.  A training step raises [IndexError], before it calls any
    module, when the source batch has fewer than two elements or the
    target batch is empty.  It can return only when [num_batches] is
    outside [-5 < num_batches <= 0] (inside, [math.ceil(num_batches / 5)]
    is 0 and [batch_id % log_step] divides by zero) and, under the
    adaptive schedule, [num_epochs] is not 0. *)
Theorem on_training_step_failures self sb tb
    (batch_id num_batches epoch_id num_epochs : Z) :
  let r := on_training_step self sb tb batch_id num_batches epoch_id
             num_epochs in
  (length sb < 2 \/ length tb < 1 -> r = Raise IndexError) /\
  (forall self', r = Ok self' ->
     2 <= length sb /\ 1 <= length tb /\
     ~ (-5 < num_batches <= 0)%Z /\
     (adaption_factor self = true -> num_epochs <> 0%Z)).
Proof.
  intros r. subst r.
  assert (length sb < 2 \/ length tb < 1 ->
          on_training_step self sb tb batch_id num_batches epoch_id num_epochs
          = Raise IndexError) as Hshort.
  { intros Hshort. unfold on_training_step, getitem_tuple.
    destruct (sb !! 0) as [X|] eqn:H0; [|done].
    destruct (sb !! 1) as [y|] eqn:H1; [|done].
    destruct (tb !! 0) as [Xt|] eqn:H2; [|done].
    apply lookup_lt_Some in H1, H2. lia. }
  split; [done|]. intros self' Hrun.
  assert (2 <= length sb /\ 1 <= length tb) as [Hsb Htb].
  { destruct (decide (length sb < 2 \/ length tb < 1)) as [Hs|Hs]; [|lia].
    rewrite (Hshort Hs) in Hrun. done. }
  split_and!; [done | done | |].
  - intros Hn.
    destruct (lookup_lt_is_Some_2 sb 0 ltac:(lia)) as [X HX].
    destruct (lookup_lt_is_Some_2 sb 1 ltac:(lia)) as [y Hy].
    destruct (lookup_lt_is_Some_2 tb 0 ltac:(lia)) as [Xt HXt].
    unfold on_training_step, getitem_tuple in Hrun. cbv zeta in Hrun.
    rewrite HX, Hy, HXt in Hrun. cbn [mbind result_bind] in Hrun.
    destruct (gamma _ _ _ _ _) as [g|]; [|done].
    cbn [mbind result_bind] in Hrun. unfold pymod in Hrun.
    rewrite decide_True in Hrun; [done|]. by apply ceil_div5_zero.
  - intros Ha ->.
    destruct (lookup_lt_is_Some_2 sb 0 ltac:(lia)) as [X HX].
    destruct (lookup_lt_is_Some_2 sb 1 ltac:(lia)) as [y Hy].
    destruct (lookup_lt_is_Some_2 tb 0 ltac:(lia)) as [Xt HXt].
    unfold on_training_step, getitem_tuple in Hrun. cbv zeta in Hrun.
    rewrite HX, Hy, HXt in Hrun. cbn [mbind result_bind] in Hrun.
    change (gamma (set_modules _ _) batch_id num_batches epoch_id 0)
      with (gamma self batch_id num_batches epoch_id 0) in Hrun.
    unfold gamma, truediv in Hrun. rewrite Ha in Hrun. by cbn in Hrun.
Qed.

(** X6.  A training step that returns leaves the hyperparameters, the
    configuration of the optimizer, the process flags and the
    validation and test accumulators as they were: only the modules,
    Adam's moments, the training accumulators and the log change. *)
Theorem on_training_step_keeps self sb tb
    (batch_id num_batches epoch_id num_epochs : Z) self' :
  on_training_step self sb tb batch_id num_batches epoch_id num_epochs
    = Ok self' ->
  params (optimizer self') = params (optimizer self) /\
  opt_lr (optimizer self') = opt_lr (optimizer self) /\
  opt_weight_decay (optimizer self') = opt_weight_decay (optimizer self) /\
  lr self' = lr self /\ weight_decay self' = weight_decay self /\
  lambd self' = lambd self /\
  adaption_factor self' = adaption_factor self /\
  num_classes self' = num_classes self /\
  world_size self' = world_size self /\ is_main self' = is_main self /\
  val_loss self' = val_loss self /\ val_accuracy self' = val_accuracy self /\
  test_loss self' = test_loss self /\
  test_accuracy self' = test_accuracy self.
Proof.
  unfold on_training_step, getitem_tuple, pymod. cbv zeta.
  destruct (sb !! 0) as [X|]; [|done].
  destruct (sb !! 1) as [y|]; [|done].
  destruct (tb !! 0) as [Xt|]; [|done]. cbn [mbind result_bind].
  destruct (gamma _ _ _ _ _) as [g|]; [|done]. cbn [mbind result_bind].
  case_decide; [done|]. cbn [mbind result_bind].
  match goal with
  | |- context [optimizer_step ?s] =>
      pose proof (optimizer_step_keeps s) as Hkeep;
      set (s1 := optimizer_step s) in *
  end.
  cbv zeta in Hkeep. cbn in Hkeep. clearbody s1.
  destruct Hkeep as (K1 & K2 & K3 & K4 & K5 & K6 & K7 & K8 & K9 & K10 & K11
                     & K12 & K13 & K14).
  cbn [is_main set_train_loss set_train_accuracy].
  case_decide; [destruct (is_main s1) eqn:Hmain|]; intros [= <-]; cbn;
    split_and!; congruence.
Qed.

(** X7.  In an epoch of [num_batches >= 1] steps the batch ids whose
    step is sampled (those with [batch_id % ceil(num_batches / 5) == 0])
    number at least one and at most five, the first step being one of
    them; on the main process a step that returns adds one line to the
    log when its batch id is sampled and none otherwise. *)
Theorem training_log_samples (num_batches : Z) :
  (0 < num_batches)%Z ->
  let sampled :=
    filter (fun b => (b `mod` ceil_div5 num_batches)%Z = 0%Z)
      (seqZ 0 num_batches) in
  0%Z ∈ sampled /\
  1 <= length sampled <= 5 /\
  (forall self sb tb batch_id epoch_id num_epochs self',
     (0 <= batch_id < num_batches)%Z -> is_main self = true ->
     on_training_step self sb tb batch_id num_batches epoch_id num_epochs
       = Ok self' ->
     length (logs self') =
       length (logs self) + (if bool_decide (batch_id ∈ sampled) then 1 else 0)).
Proof.
  intros Hn sampled.
  pose proof (ceil_div5_pos _ Hn) as Hk.
  pose proof (ceil_div5_bounds num_batches) as Hk5.
  set (k := ceil_div5 num_batches) in *.
  assert (0%Z ∈ sampled) as H0.
  { apply list_elem_of_filter. split; [done|]. apply elem_of_seqZ. lia. }
  split_and!; [done| | |].
  - destruct sampled; [by apply elem_of_nil in H0 | cbn; lia].
  - change 5 with (length [0; k; 2 * k; 3 * k; 4 * k]%Z).
    apply submseteq_length, NoDup_submseteq.
    { apply NoDup_filter, NoDup_seqZ. }
    intros b [Hb Hin]%list_elem_of_filter. apply elem_of_seqZ in Hin.
    pose proof (Z.div_mod b k ltac:(lia)) as Hdm. rewrite Hb in Hdm.
    assert (0 <= b `div` k < 5)%Z as Hq by nia.
    assert (b `div` k = 0 \/ b `div` k = 1 \/ b `div` k = 2 \/
            b `div` k = 3 \/ b `div` k = 4)%Z as Hcases by lia.
    rewrite !elem_of_cons.
    destruct Hcases as [Hc|[Hc|[Hc|[Hc|Hc]]]]; rewrite Hc in Hdm; lia.
  - intros self sb tb batch_id epoch_id num_epochs self' Hb Hmain Hrun.
    pose proof Hrun as Hrun'.
    unfold on_training_step, getitem_tuple in Hrun'.
    destruct (sb !! 0) as [X|] eqn:HX; [|done].
    destruct (sb !! 1) as [y|] eqn:Hy; [|done].
    destruct (tb !! 0) as [Xt|] eqn:HXt; [|done]. clear Hrun'.
    destruct (on_training_step_ok self sb tb batch_id num_batches epoch_id
                num_epochs X y Xt HX Hy HXt)
      as (g & loss & self1 & _ & _ & _ & Hrun1 & _ & _ & _ & _ & Hlogs).
    + intros Ha. split; [|lia]. intros ->.
      unfold on_training_step, getitem_tuple in Hrun. cbv zeta in Hrun.
      rewrite HX, Hy, HXt in Hrun. cbn [mbind result_bind] in Hrun.
      change (gamma (set_modules _ _) batch_id num_batches epoch_id 0)
        with (gamma self batch_id num_batches epoch_id 0) in Hrun.
      unfold gamma, truediv in Hrun. rewrite Ha in Hrun. by cbn in Hrun.
    + fold k. lia.
    + assert (self' = self1) as -> by congruence.
      rewrite Hlogs, Hmain, andb_true_r, length_app. f_equal. fold k.
      assert (batch_id ∈ sampled <-> (batch_id `mod` k)%Z = 0%Z) as Hiff.
      { unfold sampled. rewrite list_elem_of_filter, elem_of_seqZ. fold k.
        split; [tauto | intros; split; [done | lia]]. }
      destruct (decide ((batch_id `mod` k)%Z = 0%Z)) as [Hs|Hs].
      * rewrite bool_decide_eq_true_2, bool_decide_eq_true_2 by tauto. done.
      * rewrite bool_decide_eq_false_2, bool_decide_eq_false_2 by tauto. done.
Qed.

End TrainingStepFacts.

(* ================================================================== *)
(** * Validation and test steps *)
(* ================================================================== *)

Section EvaluationFacts.
Context `{!Torch}.
Implicit Types (self : trainer).






End EvaluationFacts.

Section EpochFacts.
Context `{!Torch} `{!Hooks}.
Implicit Types (self : trainer).



(** X11.  When exactly one loader is empty, or both are, the training
    loop of an epoch has no iteration: the epoch raises nothing of its
    own and runs only its opening and closing hooks, on a trainer whose
    modules were put in training mode and received no update. *)
Theorem training_epoch_empty_loader self
    (source_loader target_loader : DataLoader) (epoch num_epochs : Z) :
  batches source_loader = [] \/ batches target_loader = [] ->
  zip_loader source_loader target_loader = [] /\
  training_epoch self source_loader target_loader epoch num_epochs =
    (s0 ← before_training_epoch
            (set_modules (map_modules train (modules self)) self)
            (epoch + 1)%Z num_epochs;
     after_training_epoch s0 (epoch + 1)%Z num_epochs).
Proof.
  intros Hempty.
  assert (zip_loader source_loader target_loader = []) as Hzip.
  { unfold zip_loader. case_decide as Hlt.
    - destruct Hempty as [Hs | Ht].
      + rewrite Hs in Hlt. cbn in Hlt. lia.
      + rewrite Ht. apply zip_list_cycle_nil.
    - destruct Hempty as [Hs | Ht].
      + rewrite Hs. apply zip_cycle_list_nil.
      + rewrite Ht in *. destruct (batches source_loader); [done|].
        cbn in Hlt. lia. }
  split; [done|]. unfold training_epoch. rewrite Hzip. cbn.
  by destruct before_training_epoch.
Qed.

(** X13.  With [num_epochs <= 0] (zero or negative), [fit] runs no
    epoch: once the three loaders were received it returns the trainer
    as it was. *)
Theorem fit_no_epoch self (source_loader target_loader val_loader : DataLoader)
    (num_epochs : Z) (sl tl vl : DataLoader) :
  (num_epochs <= 0)%Z ->
  on_reveive_dataloader self source_loader "train" = Ok sl ->
  on_reveive_dataloader self target_loader "train" = Ok tl ->
  on_reveive_dataloader self val_loader "val" = Ok vl ->
  fit self source_loader target_loader val_loader num_epochs = Ok self.
Proof.
  intros Hn Hs Ht Hv. unfold fit. rewrite Hs. cbn [mbind result_bind].
  rewrite Ht. cbn [mbind result_bind]. rewrite Hv. cbn [mbind result_bind].
  unfold range, seqZ. replace (Z.to_nat num_epochs) with 0 by lia. done.
Qed.

End EpochFacts.

(* ================================================================== *)
(** * More on the pairing of the loaders *)
(* ================================================================== *)

Lemma zip_list_cycle_fst {A : Type} (xs ys : list A) (k : nat)
    (c : cycle_state (A:=A)) :
  ys <> [] -> cycle_at ys k c -> (zip_list_cycle xs c).*1 = xs.
Proof.
  intros Hne. revert k c. induction xs as [|x xs IH]; intros k c Hc; [done|].
  destruct (cycle_next_at ys k c Hne Hc) as (y & c' & Hnext & _ & Hc').
  cbn. rewrite Hnext. cbn. f_equal. eauto.
Qed.

Lemma zip_cycle_list_snd {A : Type} (xs ys : list A) (k : nat)
    (c : cycle_state (A:=A)) :
  xs <> [] -> cycle_at xs k c -> (zip_cycle_list c ys).*2 = ys.
Proof.
  intros Hne. revert k c. induction ys as [|y ys IH]; intros k c Hc;
    destruct (cycle_next_at xs k c Hne Hc) as (x & c' & Hnext & _ & Hc');
    cbn; rewrite Hnext; [done|].
  cbn. f_equal. eauto.
Qed.

Lemma enumerate_snd {B : Type} (xs : list B) : (enumerate xs).*2 = xs.
Proof.
  apply list_eq. intros i.
  rewrite list_lookup_fmap, enumerate_lookup. by destruct (xs !! i).
Qed.

Lemma enumerate_fst {B : Type} (xs : list B) :
  (enumerate xs).*1 = seqZ 0 (Z.of_nat (length xs)).
Proof.
  apply list_eq. intros i.
  rewrite list_lookup_fmap, enumerate_lookup.
  destruct (xs !! i) as [x|] eqn:Hi; cbn.
  - symmetry. apply lookup_seqZ. apply lookup_lt_Some in Hi. lia.
  - symmetry. apply lookup_seqZ_ge. apply lookup_ge_None in Hi. lia.
Qed.

(** X12.  With two non-empty loaders, the steps of an epoch visit every
    batch of the longer loader exactly once and in order (of both
    loaders when they are as long as each other), under the batch ids
    [0, 1, ..., max(len(source), len(target)) - 1]. *)
Theorem fit_longer_loader_once (source_loader target_loader : DataLoader) :
  let s := batches source_loader in
  let t := batches target_loader in
  let steps := enumerate (zip_loader source_loader target_loader) in
  s <> [] -> t <> [] ->
  (length t <= length s -> (fun step => step.2.1) <$> steps = s) /\
  (length s <= length t -> (fun step => step.2.2) <$> steps = t) /\
  (fun step => step.1) <$> steps
    = seqZ 0 (Z.of_nat (length s `max` length t)).
Proof.
  intros s t steps Hs Ht.
  assert ((fun step : Z * (list tensor * list tensor) => step.2.1) <$> steps
          = (zip_loader source_loader target_loader).*1) as H1.
  { subst steps. rewrite <- (enumerate_snd (zip_loader _ _)) at 2.
    by rewrite <- list_fmap_compose. }
  assert ((fun step : Z * (list tensor * list tensor) => step.2.2) <$> steps
          = (zip_loader source_loader target_loader).*2) as H2.
  { subst steps. rewrite <- (enumerate_snd (zip_loader _ _)) at 2.
    by rewrite <- list_fmap_compose. }
  split_and!.
  - intros Hle. rewrite H1. unfold zip_loader. fold s t. case_decide.
    + apply (zip_list_cycle_fst s t 0 _ Ht (cycle_at_start t)).
    + assert (length s = length t) as Heq by lia.
      apply list_eq. intros i. rewrite list_lookup_fmap.
      destruct (t !! i) as [tb|] eqn:Hi.
      * destruct (zip_cycle_list_lookup s t 0 _ i tb Hs (cycle_at_start s) Hi)
          as (sb & Hsb & ->). cbn.
        apply lookup_lt_Some in Hi. rewrite Nat.mod_small in Hsb by lia.
        done.
      * apply lookup_ge_None in Hi.
        rewrite (lookup_ge_None_2 s) by lia.
        rewrite lookup_ge_None_2; [done|].
        rewrite (zip_cycle_list_length s t 0 _ Hs (cycle_at_start s)). lia.
  - intros Hle. rewrite H2. unfold zip_loader. fold s t.
    rewrite decide_False by lia.
    apply (zip_cycle_list_snd s t 0 _ Hs (cycle_at_start s)).
  - subst steps. change (fun step : Z * (list tensor * list tensor) => step.1)
      with (@fst Z (list tensor * list tensor)).
    rewrite enumerate_fst. do 2 f_equal.
    unfold zip_loader. fold s t. case_decide.
    + rewrite (zip_list_cycle_length s t 0 _ Ht (cycle_at_start t)). lia.
    + rewrite (zip_cycle_list_length s t 0 _ Hs (cycle_at_start s)). lia.
Qed.

(* ================================================================== *)
(** * More on the dataset *)
(* ================================================================== *)

Section GetitemFacts.
Context `{!Cells}.
Implicit Types (self : AMIGOSDataset) (row : list (string * cell)).

Lemma iloc_out_of_range (df : list (list (string * cell))) (index : Z) :
  let n := Z.of_nat (length df) in
  ~ (- n <= index < n)%Z -> iloc df index = Raise IndexError.
Proof.
  intros n Hout. unfold iloc. fold n.
  rewrite decide_False; [done|]. case_decide; lia.
Qed.

(** X14.  [__getitem__] raises [IndexError] at every index outside
    [-n <= index < n], [n] being the number of metadata rows, without
    looking at the cache or the transforms; on a dataset with no row it
    does so at every index. *)
Theorem getitem_index_error self (index : Z) :
  let n := Z.of_nat (length (info self)) in
  (~ (- n <= index < n)%Z -> getitem self index = Raise IndexError) /\
  (info self = [] -> getitem self index = Raise IndexError).
Proof.
  intros n.
  assert (~ (- n <= index < n)%Z -> getitem self index = Raise IndexError)
    as Hout.
  { intros Hout. unfold getitem.
    by rewrite (iloc_out_of_range (info self) index Hout). }
  split; [done|]. intros Hnil. apply Hout. subst n. rewrite Hnil. cbn. lia.
Qed.

(** X15.  A negative index counts from the end: for [0 <= index < n],
    [__getitem__(index - n)] is [__getitem__(index)], the same tuple or
    the same exception. *)
Theorem getitem_negative_index self (index : Z) :
  let n := Z.of_nat (length (info self)) in
  (0 <= index < n)%Z ->
  getitem self (index - n) = getitem self index.
Proof.
  intros n Hin. unfold getitem, iloc. fold n.
  rewrite (decide_True (P := (index - n < 0)%Z)) by lia.
  rewrite (decide_False (P := (index < 0)%Z)) by lia.
  by replace (index - n + n)%Z with index by lia.
Qed.

(** X16.  At a valid index whose metadata row has no [clip_id] column,
    [__getitem__] raises [KeyError('clip_id')], whatever the cache
    holds and whatever transforms are set. *)
Theorem getitem_missing_clip_id self (index : Z) row :
  let n := Z.of_nat (length (info self)) in
  (- n <= index < n)%Z ->
  info self !! Z.to_nat (index `mod` n) = Some row ->
  "clip_id" ∉ row.*1 ->
  getitem self index = Raise (KeyError "clip_id").
Proof.
  intros n Hin Hrow Hmissing. unfold getitem.
  rewrite (iloc_valid _ _ row Hin Hrow). cbn. unfold dict_getitem.
  destruct (list_find _ row) as [[i [k v]]|] eqn:Hfind; [|done].
  apply list_find_Some in Hfind as (Hi & Hk & _). cbn in Hk. subst k.
  exfalso. apply Hmissing. apply list_elem_of_fmap.
  exists ("clip_id", v). split; [done|]. by eapply list_elem_of_lookup_2.
Qed.

End GetitemFacts.

(* ================================================================== *)
(** * The theorems at concrete inputs *)
(* ================================================================== *)

Lemma fit_training_steps_witness :
  length (enumerate (zip_loader (numbered_loader 10) (numbered_loader 4))) = 10
  /\ exists sb tb,
       batches (numbered_loader 10) !! (9 `mod` 10) = Some sb /\
       batches (numbered_loader 4) !! (9 `mod` 4) = Some tb /\
       enumerate (zip_loader (numbered_loader 10) (numbered_loader 4)) !! 9
         = Some (9%Z, (sb, tb)).
Proof.
  assert (batches (numbered_loader 10) = [] <->
          batches (numbered_loader 4) = []) as H by (split; discriminate).
  destruct (@fit_training_steps toy_torch toy_hooks
              (numbered_loader 10) (numbered_loader 4) H)
    as (Hlen & Hpair & _).
  split; [exact Hlen|]. apply (Hpair 9). vm_compute. lia.
Defined.


Lemma reversal_coefficient_schedule_witness :
  gamma (toy_trainer false true) 3 10 1 2 = Ok 1%R /\
  gamma (toy_trainer true true) 0 10 0 2 = Ok 0%R /\
  gamma (toy_trainer true true) 0 10 1 2 = Ok (2 / (1 + exp (-5)) - 1)%R.
Proof.
  split_and!.
  - apply (@reversal_coefficient_schedule toy_torch (toy_trainer false true)
             3 10 1 2). reflexivity.
  - apply (@reversal_coefficient_schedule toy_torch (toy_trainer true true)
             0 10 0 2); [reflexivity | discriminate | discriminate |].
    change (0 / 20 = 0)%R. lra.
  - apply (@reversal_coefficient_schedule toy_torch (toy_trainer true true)
             0 10 1 2); [reflexivity | discriminate | discriminate |].
    change (10 / 20 = 1 / 2)%R. lra.
Defined.

Lemma training_step_ignores_target_labels_witness :
  on_training_step (toy_trainer true true) toy_source_batch
    toy_labelled_target_batch 0 10 0 2 =
  on_training_step (toy_trainer true true) toy_source_batch
    toy_target_batch 0 10 0 2.
Proof.
  apply (@training_step_ignores_target_labels toy_torch). reflexivity.
Defined.

Lemma init_num_classes_witness :
  (exists self, @DANNTrainer_init toy_torch 0 0 0 1 false (PyInt 3) 0.0001 0
                  (Ok (1%Z, true)) = Ok self /\ num_classes self = PyInt 3) /\
  (exists self, @DANNTrainer_init toy_torch 0 2 0 1 false PyNone 0.0001 0
                  (Ok (1%Z, true)) = Ok self /\ num_classes self = PyInt 2) /\
  @DANNTrainer_init toy_torch 0 0 0 1 false PyNone 0.0001 0 (Ok (1%Z, true))
    = Raise (ValueError "The number of classes is not specified.").
Proof.
  split_and!.
  - destruct (@init_num_classes toy_torch 0 0 0 1 false (PyInt 3) 0.0001 0
                1 true) as [_ Hgiven].
    destruct (Hgiven (PyInt 3)) as (_ & _ & Hok);
      [left; by exists 3%Z|].
    destruct (Hok 0 eq_refl eq_refl) as (self & Hrun & Hk & _).
    by exists self.
  - destruct (@init_num_classes toy_torch 0 2 0 1 false PyNone 0.0001 0
                1 true) as [_ Hgiven].
    destruct (Hgiven (PyInt 2)) as (_ & _ & Hok);
      [right; split; reflexivity|].
    destruct (Hok 0 eq_refl eq_refl) as (self & Hrun & Hk & _).
    by exists self.
  - destruct (@init_num_classes toy_torch 0 0 0 1 false PyNone 0.0001 0
                1 true) as [Hnone _].
    exact (Hnone eq_refl eq_refl).
Defined.


Lemma getitem_returns_witness :
  @getitem toy_cells toy_dataset (-1) = Ok ([2; 3; 4]%Z, ["1"; "P01_0"; "5"]).
Proof.
  destruct (@getitem_returns toy_cells toy_dataset (-1) toy_row "P01_0"
              [1; 2; 3]%Z) as [Hget _];
    [cbn; lia | reflexivity.. | exact Hget].
Defined.

Lemma getitem_without_label_transform_witness :
  exists signal,
    @getitem toy_cells toy_dataset 0 = Ok (signal, ["1"; "P01_0"; "5"]) /\
    "P01_0" ∈ toy_row.*2.
Proof.
  destruct (@getitem_without_label_transform toy_cells toy_dataset 0 toy_row
              "P01_0" [1; 2; 3]%Z) as (signal & Hget & _ & Hin);
    [cbn; lia | reflexivity..|].
  exists signal. split; [exact Hget | exact Hin].
Defined.

Lemma AMIGOSDataset_init_idempotent_witness :
  exists self fs',
    @AMIGOSDataset_init toy_cells toy_slice "./data_preprocessed" 128 0 14 16
      None None None "./io/amigos" 1 true ∅ = Ok (self, fs', ["P01_0"]) /\
    @AMIGOSDataset_init toy_cells toy_slice "./data_preprocessed" 128 0 14 16
      None None None "./io/amigos" 1 true fs' = Ok (self, fs', []).
Proof.
  eexists _, _. split; [reflexivity|].
  apply (@AMIGOSDataset_init_idempotent toy_cells toy_slice "./data_preprocessed"
           128 0 14 16 None None None "./io/amigos" 1 true ∅ _ _ ["P01_0"]).
  reflexivity.
Defined.

Lemma reversal_coefficient_range_witness :
  exists g, gamma (toy_trainer true true) 3 10 1 2 = Ok g /\ (0 <= g < 1)%R.
Proof.
  apply (@reversal_coefficient_range toy_torch (toy_trainer true true)
           3 10 1 2); [reflexivity | lia | lia].
Defined.

Lemma reversal_coefficient_increasing_witness :
  exists g g',
    gamma (toy_trainer true true) 9 10 0 2 = Ok g /\
    gamma (toy_trainer true true) 0 10 1 2 = Ok g' /\ (g < g')%R.
Proof.
  apply (@reversal_coefficient_increasing toy_torch (toy_trainer true true)
           9 0 10 0 1 2); [reflexivity | lia..].
Defined.

Lemma on_training_step_failures_witness :
  on_training_step (toy_trainer false true) toy_target_batch toy_target_batch
    0 10 0 2 = Raise IndexError /\
  (forall self',
     on_training_step (toy_trainer false true) toy_source_batch
       toy_target_batch 0 0 0 2 <> Ok self').
Proof.
  split.
  - apply (@on_training_step_failures toy_torch (toy_trainer false true)
             toy_target_batch toy_target_batch 0 10 0 2). left. cbn. lia.
  - intros self' Hrun.
    destruct (@on_training_step_failures toy_torch (toy_trainer false true)
                toy_source_batch toy_target_batch 0 0 0 2) as [_ Hok].
    destruct (Hok self' Hrun) as (_ & _ & Hn & _). lia.
Defined.

Lemma on_training_step_keeps_witness :
  exists self',
    on_training_step (toy_trainer true true) toy_source_batch toy_target_batch
      0 10 0 2 = Ok self' /\
    params (optimizer self') = [extractor; classifier; domain_classifier] /\
    val_loss self' = [].
Proof.
  destruct (@on_training_step_ok toy_torch (toy_trainer true true)
              toy_source_batch toy_target_batch 0 10 0 2
              (toy_features 1) (Tensor [1] [0%R]) (toy_features 2)
              eq_refl eq_refl eq_refl)
    as (g & loss & self' & _ & _ & _ & Hrun & _);
    [intros _; split; discriminate | discriminate |].
  exists self'. split; [exact Hrun|].
  destruct (@on_training_step_keeps toy_torch (toy_trainer true true)
              toy_source_batch toy_target_batch 0 10 0 2 self' Hrun)
    as (Hparams & _ & _ & _ & _ & _ & _ & _ & _ & _ & Hval & _).
  split; [exact Hparams | exact Hval].
Defined.

Lemma training_log_samples_witness :
  length (filter (fun b => (b `mod` ceil_div5 11)%Z = 0%Z) (seqZ 0 11)) <= 5 /\
  0%Z ∈ filter (fun b => (b `mod` ceil_div5 11)%Z = 0%Z) (seqZ 0 11).
Proof.
  destruct (@training_log_samples toy_torch 11 ltac:(lia))
    as (H0 & [_ Hle] & _).
  split; [exact Hle | exact H0].
Defined.




Lemma training_epoch_empty_loader_witness :
  zip_loader (numbered_loader 2) (numbered_loader 0) = [] /\
  @training_epoch toy_torch toy_hooks (toy_trainer false true)
    (numbered_loader 2) (numbered_loader 0) 0 1
  = Ok (set_modules (modules (toy_trainer false true))
          (toy_trainer false true)).
Proof.
  destruct (@training_epoch_empty_loader toy_torch toy_hooks
              (toy_trainer false true) (numbered_loader 2) (numbered_loader 0)
              0 1 (or_intror eq_refl)) as [Hzip Hrun].
  split; [exact Hzip|]. rewrite Hrun. reflexivity.
Defined.

Lemma fit_longer_loader_once_witness :
  (fun step : Z * (list tensor * list tensor) => step.2.1)
    <$> enumerate (zip_loader (numbered_loader 3) (numbered_loader 2))
  = batches (numbered_loader 3).
Proof.
  apply (fit_longer_loader_once (numbered_loader 3) (numbered_loader 2));
    [discriminate | discriminate | vm_compute; lia].
Defined.

Lemma fit_no_epoch_witness :
  @fit toy_torch toy_hooks (toy_trainer false true) (numbered_loader 3)
    (numbered_loader 2) (numbered_loader 1) (-1)
  = Ok (toy_trainer false true).
Proof.
  apply (@fit_no_epoch toy_torch toy_hooks (toy_trainer false true)
           (numbered_loader 3) (numbered_loader 2) (numbered_loader 1) (-1)
           (numbered_loader 3) (numbered_loader 2) (numbered_loader 1));
    [lia | reflexivity..].
Defined.

Lemma getitem_index_error_witness :
  @getitem toy_cells toy_dataset 1 = Raise IndexError /\
  @getitem toy_cells toy_dataset (-2) = Raise IndexError.
Proof.
  split.
  - apply (proj1 (@getitem_index_error toy_cells toy_dataset 1)). cbn. lia.
  - apply (proj1 (@getitem_index_error toy_cells toy_dataset (-2))). cbn. lia.
Defined.

Lemma getitem_negative_index_witness :
  @getitem toy_cells toy_dataset (0 - 1) = @getitem toy_cells toy_dataset 0.
Proof.
  apply (@getitem_negative_index toy_cells toy_dataset 0). cbn. lia.
Defined.

Lemma getitem_missing_clip_id_witness :
  @getitem toy_cells toy_dataset_without_clip_id 0
  = Raise (KeyError "clip_id").
Proof.
  apply (@getitem_missing_clip_id toy_cells toy_dataset_without_clip_id 0
           [("subject_id", "1"); ("valence", "5")]);
    [cbn; lia | reflexivity |].
  cbn. rewrite !elem_of_cons, elem_of_nil. intros [H | [H | []]]; discriminate.
Defined.
